(** * pdf2word: the browser-side conversion widget

    A shallow embedding of the three revisions of [PDFToWordConverter]
    found in the repository:

    - [ScriptA]  : src/frontend/script.js, first document  (lines 1-177)
    - [Part000]  : src/unnamed/part_000                     (lines 1-221)
    - [ScriptB]  : src/frontend/script.js, second document (lines 178-529)

    The widget is a class whose methods mutate DOM elements and a few
    fields of [this], call [fetch] and suspend at [await].  Methods are
    embedded in a state-and-exception monad with one more outcome, the
    suspension at a network request; the browser answers a suspended
    computation with the settlement of the request. *)

From Stdlib Require Import String List Bool NArith ZArith Lia DecimalString.
From Stdlib Require Import Floats.SpecFloat.
Import ListNotations.
Open Scope string_scope.

(* ================================================================== *)
(** ** JavaScript values, as far as the widget meets them              *)
(* ================================================================== *)

Module JS.

(** What [JSON.parse] can build, plus [undefined] (a field never
    assigned, a property that is absent).  A number is the binary64 value
    the parser produced.  An object lists its properties in the order of
    the JSON text. *)
#[warnings="-register-all"]
Inductive jsval : Type :=
| JUndefined
| JNull
| JBool (b : bool)
| JNum (x : spec_float)
| JStr (s : string)
| JArr (elems : list jsval)
| JObj (props : list (string * jsval)).

(** A thrown value.  Everything the widget catches is an [Error] object
    (its own [new Error(..)], the [TypeError] of a rejected [fetch], the
    [SyntaxError] of [response.json()]), and the handlers read nothing
    but [error.message]. *)
Record Exn : Type := Error { message : string }.

(** The parts of the language that differ between engines: how a number
    prints, and the wording of the two [TypeError]s the engine itself can
    raise here. *)
Record Engine : Type := {
  NumberToString : spec_float -> string;
  TypeError_read : jsval -> string -> Exn;  (* property read on undefined / null *)
  TypeError_primitive : Exn                 (* object without a usable toString *)
}.

(** ToBoolean *)
Definition truthy (v : jsval) : bool :=
  match v with
  | JUndefined | JNull => false
  | JBool b => b
  | JNum (S754_zero _) | JNum S754_nan => false
  | JNum _ => true
  | JStr s => negb (s =? "")
  | JArr _ | JObj _ => true
  end.

(** [a || b] *)
Definition or_else (a b : jsval) : jsval := if truthy a then a else b.

(** [a || b] on two strings. *)
Definition str_or_else (a b : string) : string := if a =? "" then b else a.

(** [JSON.parse] keeps the last of several properties of one name. *)
Fixpoint own_property (props : list (string * jsval)) (name : string) : option jsval :=
  match props with
  | [] => None
  | (k, v) :: rest =>
      match own_property rest name with
      | Some v' => Some v'
      | None => if k =? name then Some v else None
      end
  end.

Definition has_own (props : list (string * jsval)) (name : string) : bool :=
  match own_property props name with Some _ => true | None => false end.

Definition nullish (v : jsval) : bool :=
  match v with
  | JUndefined | JNull => true
  | _ => false
  end.

(** The value of property [name] of a value that is neither [undefined]
    nor [null]; primitives and arrays have none of the names read here. *)
Definition field (v : jsval) (name : string) : jsval :=
  match v with
  | JObj props =>
      match own_property props name with
      | Some x => x
      | None => JUndefined
      end
  | _ => JUndefined
  end.

Section WithEngine.
Context (E : Engine).

(** [v.name], for the property names the widget reads ([error],
    [success], [file_id], [filename], [original_filename]): none of them
    is found on a prototype, so the read is an own property or
    [undefined]; on [undefined] and [null] it throws. *)
Definition Get (v : jsval) (name : string) : Exn + jsval :=
  if nullish v then inl (TypeError_read E v name) else inr (field v name).

(** ToString.  An array joins its elements with commas, [null] and
    [undefined] elements printing as nothing.  A parsed object prints
    through [Object.prototype.toString] unless the JSON text gave it a
    property [toString] of its own, which is not callable: then no
    primitive is reached and a [TypeError] is thrown. *)
Fixpoint ToString (v : jsval) : Exn + string :=
  match v with
  | JUndefined => inr "undefined"
  | JNull => inr "null"
  | JBool true => inr "true"
  | JBool false => inr "false"
  | JNum x => inr (NumberToString E x)
  | JStr s => inr s
  | JArr elems =>
      (fix join (l : list jsval) : Exn + string :=
         match l with
         | [] => inr ""
         | x :: rest =>
             let elem :=
               match x with
               | JUndefined | JNull => inr ""
               | _ => ToString x
               end in
             match elem with
             | inl e => inl e
             | inr s =>
                 match rest with
                 | [] => inr s
                 | _ :: _ =>
                     match join rest with
                     | inl e => inl e
                     | inr r => inr (s ++ "," ++ r)
                     end
                 end
             end
         end) elems
  | JObj props =>
      if has_own props "toString" then inl (TypeError_primitive E)
      else inr "[object Object]"
  end.

(** [new Error(v)]: the message is [ToString v]; without an argument
    the message is the prototype's empty string. *)
Definition new_Error (v : jsval) : Exn + Exn :=
  match v with
  | JUndefined => inr (Error "")
  | _ => match ToString v with
         | inl e => inl e
         | inr s => inr (Error s)
         end
  end.
End WithEngine.

(** A number in a template literal where the number is a small natural
    ([response.status]): its decimal digits. *)
Definition nat_literal (n : N) : string := NilZero.string_of_uint (N.to_uint n).

End JS.
Import JS.

(* ================================================================== *)
(** ** The page: elements, the converter object, the outside world     *)
(* ================================================================== *)

Module Browser.

(** A [File] as handed over by the file input or a drop. *)
Record File : Type := { name : string; type : string; size : N }.

Record Blob : Type := { blob_size : N; blob_type : string }.

(** A response of the backend.  [json], [text] and [blob] are what the
    promises [response.json()], [response.text()] and [response.blob()]
    settle to: a rejection or a value. *)
Record Response : Type := {
  status : N;
  json : Exn + jsval;
  text : Exn + string;
  blob : Exn + Blob
}.

(** [response.ok] *)
Definition ok (r : Response) : bool := (200 <=? status r)%N && (status r <=? 299)%N.

(** How a [fetch] settles: rejected (no response) or fulfilled. *)
Definition Settlement : Type := Exn + Response.

(** The elements the constructor looks up, with the properties the
    methods write.  [progress.style.width], the text of [status] /
    [progressText], [style.animation] and the console are left out: the
    timers started by [showProgress] and the effect helpers write them at
    moments of their own, and nothing below reads them. *)
Record DOM : Type := {
  uploadArea_display : string;
  progressArea_display : string;
  resultArea_display : string;
  errorArea_display : string;
  fileInput_value : string;
  errorMessage_textContent : string;
  downloadBtn_textContent : string;
  downloadBtn_disabled : bool;
  loadingAnimation_show : bool
}.

(** The fields of [this] the methods assign.  [originalFilename] is the
    field of [ScriptA], [downloadFilename] the one of the other two; a
    field never assigned reads [undefined]. *)
Record Converter : Type := {
  backendUrl : string;
  fileId : jsval;
  convertedFilename : jsval;
  originalFilename : jsval;
  downloadFilename : jsval
}.

(** What leaves the page. *)
Inductive Effect : Type :=
| Fetch (method : string) (url : string) (body : option File)
| Click (href : Blob) (download : string)     (* the save action: [link.click()] *)
| Reload.                                     (* [location.reload()] *)

Record World : Type := {
  dom : DOM;
  this : Converter;
  log : list Effect       (* oldest first *)
}.

(** *** Assignments *)

Definition set_dom (f : DOM -> DOM) (w : World) : World :=
  {| dom := f (dom w); this := this w; log := log w |}.

Definition set_this (f : Converter -> Converter) (w : World) : World :=
  {| dom := dom w; this := f (this w); log := log w |}.

Definition emit (e : Effect) (w : World) : World :=
  {| dom := dom w; this := this w; log := log w ++ [e] |}.

Definition uploadArea_display_set (v : string) (d : DOM) : DOM :=
  {| uploadArea_display := v;
     progressArea_display := progressArea_display d;
     resultArea_display := resultArea_display d;
     errorArea_display := errorArea_display d;
     fileInput_value := fileInput_value d;
     errorMessage_textContent := errorMessage_textContent d;
     downloadBtn_textContent := downloadBtn_textContent d;
     downloadBtn_disabled := downloadBtn_disabled d;
     loadingAnimation_show := loadingAnimation_show d |}.

Definition progressArea_display_set (v : string) (d : DOM) : DOM :=
  {| uploadArea_display := uploadArea_display d;
     progressArea_display := v;
     resultArea_display := resultArea_display d;
     errorArea_display := errorArea_display d;
     fileInput_value := fileInput_value d;
     errorMessage_textContent := errorMessage_textContent d;
     downloadBtn_textContent := downloadBtn_textContent d;
     downloadBtn_disabled := downloadBtn_disabled d;
     loadingAnimation_show := loadingAnimation_show d |}.

Definition resultArea_display_set (v : string) (d : DOM) : DOM :=
  {| uploadArea_display := uploadArea_display d;
     progressArea_display := progressArea_display d;
     resultArea_display := v;
     errorArea_display := errorArea_display d;
     fileInput_value := fileInput_value d;
     errorMessage_textContent := errorMessage_textContent d;
     downloadBtn_textContent := downloadBtn_textContent d;
     downloadBtn_disabled := downloadBtn_disabled d;
     loadingAnimation_show := loadingAnimation_show d |}.

Definition errorArea_display_set (v : string) (d : DOM) : DOM :=
  {| uploadArea_display := uploadArea_display d;
     progressArea_display := progressArea_display d;
     resultArea_display := resultArea_display d;
     errorArea_display := v;
     fileInput_value := fileInput_value d;
     errorMessage_textContent := errorMessage_textContent d;
     downloadBtn_textContent := downloadBtn_textContent d;
     downloadBtn_disabled := downloadBtn_disabled d;
     loadingAnimation_show := loadingAnimation_show d |}.

Definition fileInput_value_set (v : string) (d : DOM) : DOM :=
  {| uploadArea_display := uploadArea_display d;
     progressArea_display := progressArea_display d;
     resultArea_display := resultArea_display d;
     errorArea_display := errorArea_display d;
     fileInput_value := v;
     errorMessage_textContent := errorMessage_textContent d;
     downloadBtn_textContent := downloadBtn_textContent d;
     downloadBtn_disabled := downloadBtn_disabled d;
     loadingAnimation_show := loadingAnimation_show d |}.

Definition errorMessage_textContent_set (v : string) (d : DOM) : DOM :=
  {| uploadArea_display := uploadArea_display d;
     progressArea_display := progressArea_display d;
     resultArea_display := resultArea_display d;
     errorArea_display := errorArea_display d;
     fileInput_value := fileInput_value d;
     errorMessage_textContent := v;
     downloadBtn_textContent := downloadBtn_textContent d;
     downloadBtn_disabled := downloadBtn_disabled d;
     loadingAnimation_show := loadingAnimation_show d |}.

Definition downloadBtn_textContent_set (v : string) (d : DOM) : DOM :=
  {| uploadArea_display := uploadArea_display d;
     progressArea_display := progressArea_display d;
     resultArea_display := resultArea_display d;
     errorArea_display := errorArea_display d;
     fileInput_value := fileInput_value d;
     errorMessage_textContent := errorMessage_textContent d;
     downloadBtn_textContent := v;
     downloadBtn_disabled := downloadBtn_disabled d;
     loadingAnimation_show := loadingAnimation_show d |}.

Definition downloadBtn_disabled_set (v : bool) (d : DOM) : DOM :=
  {| uploadArea_display := uploadArea_display d;
     progressArea_display := progressArea_display d;
     resultArea_display := resultArea_display d;
     errorArea_display := errorArea_display d;
     fileInput_value := fileInput_value d;
     errorMessage_textContent := errorMessage_textContent d;
     downloadBtn_textContent := downloadBtn_textContent d;
     downloadBtn_disabled := v;
     loadingAnimation_show := loadingAnimation_show d |}.

Definition loadingAnimation_show_set (v : bool) (d : DOM) : DOM :=
  {| uploadArea_display := uploadArea_display d;
     progressArea_display := progressArea_display d;
     resultArea_display := resultArea_display d;
     errorArea_display := errorArea_display d;
     fileInput_value := fileInput_value d;
     errorMessage_textContent := errorMessage_textContent d;
     downloadBtn_textContent := downloadBtn_textContent d;
     downloadBtn_disabled := downloadBtn_disabled d;
     loadingAnimation_show := v |}.

Definition fileId_set (v : jsval) (c : Converter) : Converter :=
  {| backendUrl := backendUrl c; fileId := v;
     convertedFilename := convertedFilename c;
     originalFilename := originalFilename c;
     downloadFilename := downloadFilename c |}.

Definition convertedFilename_set (v : jsval) (c : Converter) : Converter :=
  {| backendUrl := backendUrl c; fileId := fileId c;
     convertedFilename := v;
     originalFilename := originalFilename c;
     downloadFilename := downloadFilename c |}.

Definition originalFilename_set (v : jsval) (c : Converter) : Converter :=
  {| backendUrl := backendUrl c; fileId := fileId c;
     convertedFilename := convertedFilename c;
     originalFilename := v;
     downloadFilename := downloadFilename c |}.

Definition downloadFilename_set (v : jsval) (c : Converter) : Converter :=
  {| backendUrl := backendUrl c; fileId := fileId c;
     convertedFilename := convertedFilename c;
     originalFilename := originalFilename c;
     downloadFilename := v |}.

(** *** Computations that may throw and may suspend at a request *)

(** A computation started in a world either completes, normally or by a
    throw, or is suspended at [await fetch(..)]: [Suspended w k] shows the
    world [w] left behind while the request is in flight, and [k] goes on
    from the world found at the settlement. *)
Inductive Outcome (A : Type) : Type :=
| Completed (w : World) (r : Exn + A)
| Suspended (w : World) (k : World -> Settlement -> Outcome A).
Arguments Completed {A} w r.
Arguments Suspended {A} w k.

Definition Async (A : Type) : Type := World -> Outcome A.

Definition ret {A} (a : A) : Async A := fun w => Completed w (inr a).
Definition throw {A} (e : Exn) : Async A := fun w => Completed w (inl e).

(** A value or a throw computed without touching the world; also the
    [await] of a promise of the response, whose settlement the response
    record carries. *)
Definition settle {A} (r : Exn + A) : Async A := fun w => Completed w r.

Fixpoint and_then {A B} (o : Outcome A) (f : A -> Async B) : Outcome B :=
  match o with
  | Completed w (inr a) => f a w
  | Completed w (inl e) => Completed w (inl e)
  | Suspended w k => Suspended w (fun w' s => and_then (k w' s) f)
  end.

Definition bind {A B} (m : Async A) (f : A -> Async B) : Async B :=
  fun w => and_then (m w) f.

Declare Scope async_scope.
Delimit Scope async_scope with async.
Notation "x <- m ;; k" := (bind m (fun x => k))
  (at level 61, m at next level, right associativity) : async_scope.
Notation "m ;; k" := (bind m (fun _ => k))
  (at level 61, right associativity) : async_scope.
Open Scope async_scope.

Definition gets {A} (f : World -> A) : Async A := fun w => Completed w (inr (f w)).
Definition assign (f : World -> World) : Async unit := fun w => Completed (f w) (inr tt).

(** [await fetch(url, {method, body})] *)
Definition fetch (method url : string) (body : option File) : Async Response :=
  fun w => Suspended (emit (Fetch method url body) w) (fun w' s => Completed w' s).

(** [try { body } catch (error) { handler }] *)
Fixpoint catching {A} (o : Outcome A) (handler : Exn -> Async A) : Outcome A :=
  match o with
  | Completed w (inl e) => handler e w
  | Completed w (inr a) => Completed w (inr a)
  | Suspended w k => Suspended w (fun w' s => catching (k w' s) handler)
  end.

Definition try_catch {A} (body : Async A) (handler : Exn -> Async A) : Async A :=
  fun w => catching (body w) handler.

(** [.. finally { final }]: [final] runs after either completion, which
    stands unless [final] itself throws. *)
Fixpoint finishing {A} (o : Outcome A) (final : Async unit) : Outcome A :=
  match o with
  | Completed w r => and_then (final w) (fun _ => settle r)
  | Suspended w k => Suspended w (fun w' s => finishing (k w' s) final)
  end.

Definition try_catch_finally {A} (body : Async A) (handler : Exn -> Async A)
    (final : Async unit) : Async A :=
  fun w => finishing (catching (body w) handler) final.

(** Running a computation against the settlements the network gives, in
    order, nothing else touching the page while a request is in flight:
    the continuation finds the world the suspension left.  [None] when the
    computation still waits for a settlement. *)
Fixpoint run {A} (o : Outcome A) (net : list Settlement) : option (World * (Exn + A)) :=
  match o with
  | Completed w r => Some (w, r)
  | Suspended w k =>
      match net with
      | [] => None
      | s :: net' => run (k w s) net'
      end
  end.

(** The world a suspended computation shows while its request is in
    flight. *)
Definition in_flight {A} (o : Outcome A) : option World :=
  match o with
  | Completed _ _ => None
  | Suspended w _ => Some w
  end.

(** A template literal [`${a}${b}..`]. *)
Fixpoint template (E : Engine) (parts : list jsval) : Exn + string :=
  match parts with
  | [] => inr ""
  | p :: rest =>
      match ToString E p with
      | inl e => inl e
      | inr s =>
          match template E rest with
          | inl e => inl e
          | inr r => inr (s ++ r)
          end
      end
  end.

End Browser.
Import Browser.

(* ================================================================== *)
(** ** A page with several converters                                  *)
(* ================================================================== *)

Module Listeners.

(** A request in flight: the converter that awaits it, by its place
    among the converters of the page, and what that converter does at the
    settlement. *)
Definition Waiting : Type := (nat * (World -> Settlement -> Outcome unit))%type.

(** Every constructor ends with [initEventListeners()], which registers
    the listeners of the new object on the elements of the page.  A page
    on which the constructor has run more than once therefore has several
    converters on the same elements, and an event reaches each of them,
    in the order they were made.  [converters] lists the objects whose
    listeners are registered, in that order. *)
Record Page : Type := {
  elements : DOM;
  converters : list Converter;
  traffic : list Effect;    (* oldest first *)
  waiting : list Waiting    (* oldest first *)
}.

(** The page as one of its converters sees it. *)
Definition view (p : Page) (c : Converter) : World :=
  {| dom := elements p; this := c; log := traffic p |}.

(** A page on which the constructor has run once. *)
Definition page_of (w : World) : Page :=
  {| elements := dom w; converters := [this w]; traffic := log w; waiting := [] |}.

Fixpoint replace_nth {A : Type} (i : nat) (x : A) (l : list A) : list A :=
  match l, i with
  | [], _ => []
  | _ :: rest, O => x :: rest
  | y :: rest, S i' => y :: replace_nth i' x rest
  end.

(** A method run with converter number [i] as [this]: as far as its
    completion, or as far as its first [await], the request then joining
    the ones in flight. *)
Definition as_converter (i : nat) (method : Async unit) (p : Page) : Page :=
  match nth_error (converters p) i with
  | None => p
  | Some c =>
      match method (view p c) with
      | Completed w _ =>
          {| elements := dom w;
             converters := replace_nth i (this w) (converters p);
             traffic := log w;
             waiting := waiting p |}
      | Suspended w k =>
          {| elements := dom w;
             converters := replace_nth i (this w) (converters p);
             traffic := log w;
             waiting := (waiting p ++ [(i, k)])%list |}
      end
  end.

(** An event: the listener each converter registered runs in turn. *)
Fixpoint dispatch_from (i n : nat) (listener : Async unit) (p : Page) : Page :=
  match n with
  | O => p
  | S n' => dispatch_from (S i) n' listener (as_converter i listener p)
  end.

Definition dispatch (listener : Async unit) (p : Page) : Page :=
  dispatch_from 0 (length (converters p)) listener p.

(** The oldest request in flight settles. *)
Definition settle_oldest (s : Settlement) (p : Page) : Page :=
  match waiting p with
  | [] => p
  | (i, k) :: rest =>
      as_converter i (fun w => k w s)
        {| elements := elements p;
           converters := converters p;
           traffic := traffic p;
           waiting := rest |}
  end.

End Listeners.
Import Listeners.

(* ================================================================== *)
(** ** src/frontend/script.js, first document                          *)
(* ================================================================== *)

Module ScriptA.
Section Methods.
Context (E : Engine).

(** constructor: the element lookups are the fields of [DOM], every
    element taken to be on the page; no field of [this] but [backendUrl]
    is assigned. *)
Definition constructor : Converter :=
  {| backendUrl := "https://pdf2word-4hoo.onrender.com";
     fileId := JUndefined;
     convertedFilename := JUndefined;
     originalFilename := JUndefined;
     downloadFilename := JUndefined |}.

Definition showProgress : Async unit :=
  assign (set_dom (uploadArea_display_set "none")) ;;
  assign (set_dom (progressArea_display_set "block")) ;;
  assign (set_dom (resultArea_display_set "none")) ;;
  assign (set_dom (errorArea_display_set "none")).
  (* setInterval: the bar's width only *)

Definition showResult (fileId filename originalFilename : jsval) : Async unit :=
  assign (set_dom (progressArea_display_set "none")) ;;
  assign (set_dom (resultArea_display_set "block")) ;;
  assign (set_this (fileId_set fileId)) ;;
  assign (set_this (convertedFilename_set filename)) ;;
  assign (set_this (originalFilename_set originalFilename)).

Definition showError (msg : string) : Async unit :=
  assign (set_dom (uploadArea_display_set "block")) ;;
  assign (set_dom (progressArea_display_set "none")) ;;
  assign (set_dom (resultArea_display_set "none")) ;;
  assign (set_dom (errorArea_display_set "block")) ;;
  assign (set_dom (errorMessage_textContent_set msg)).

Definition convertFile (file : File) : Async unit :=
  showProgress ;;
  (* formData.append('file', file) *)
  try_catch
    (url <- gets (fun w => backendUrl (this w) ++ "/convert") ;;
     response <- fetch "POST" url (Some file) ;;
     result <- settle (json response) ;;
     if negb (ok response) then
       error <- settle (Get E result "error") ;;
       exn <- settle (new_Error E (or_else error (JStr "Conversion failed"))) ;;
       throw exn
     else
       file_id <- settle (Get E result "file_id") ;;
       filename <- settle (Get E result "filename") ;;
       original_filename <- settle (Get E result "original_filename") ;;
       showResult file_id filename original_filename)
    (fun error => showError (message error)).

Definition handleFile (file : File) : Async unit :=
  (* Validate file type *)
  if negb (type file =? "application/pdf") then
    showError "Please select a PDF file"
  (* Validate file size (20MB) *)
  else if (20 * 1024 * 1024 <? size file)%N then
    showError "File size must be less than 20MB"
  else
    convertFile file.

Definition downloadConvertedFile : Async unit :=
  fileId_ <- gets (fun w => fileId (this w)) ;;
  convertedFilename_ <- gets (fun w => convertedFilename (this w)) ;;
  if truthy fileId_ && truthy convertedFilename_ then
    try_catch_finally
      (assign (set_dom (downloadBtn_textContent_set "Downloading...")) ;;
       assign (set_dom (downloadBtn_disabled_set true)) ;;
       backendUrl_ <- gets (fun w => backendUrl (this w)) ;;
       url <- settle (template E [JStr backendUrl_; JStr "/download/"; fileId_;
                                  JStr "/"; convertedFilename_]) ;;
       response <- fetch "GET" url None ;;
       if negb (ok response) then
         throw (Error "Download failed")
       else
         blob_ <- settle (blob response) ;;
         (* createObjectURL(blob); createElement('a'); link.href = url *)
         originalFilename_ <- gets (fun w => originalFilename (this w)) ;;
         download <- settle (ToString E (or_else originalFilename_ (JStr "converted.docx"))) ;;
         (* appendChild(link) *)
         assign (emit (Click blob_ download))
         (* removeChild(link); revokeObjectURL(url) *))
      (fun error => showError "Download failed. Please try again.")
      (assign (set_dom (downloadBtn_textContent_set "Download Word Document")) ;;
       assign (set_dom (downloadBtn_disabled_set false)))
  else
    ret tt.

(** initEventListeners: what the listeners do when the events come in.
    The [dragover] / [dragleave] listeners only toggle a CSS class. *)
Definition fileInput_change (files : list File) : Async unit :=
  match files with
  | file :: _ => handleFile file
  | [] => ret tt
  end.

Definition uploadArea_drop (files : list File) : Async unit :=
  match files with
  | file :: _ => handleFile file
  | [] => ret tt
  end.

Definition downloadBtn_click : Async unit := downloadConvertedFile.

(** The page-level [resetConverter()].  [new PDFToWordConverter()] runs
    the constructor: the fields, then [initEventListeners()], which puts
    the listeners of the new object on the elements beside those of the
    converters made before.  Then the file input, the same element for
    all of them, is emptied. *)
Definition resetConverter (p : Page) : Page :=
  let converter := constructor in
  {| elements := fileInput_value_set "" (elements p);
     converters := (converters p ++ [converter])%list;
     traffic := traffic p;
     waiting := waiting p |}.

(** [DOMContentLoaded] *)
Definition DOMContentLoaded (document : DOM) : World :=
  {| dom := document; this := constructor; log := [] |}.
End Methods.
End ScriptA.

(* ================================================================== *)
(** ** src/unnamed/part_000                                            *)
(* ================================================================== *)

Module Part000.
Section Methods.
Context (E : Engine).

Definition testBackendConnection : Async unit :=
  try_catch
    (url <- gets (fun w => backendUrl (this w) ++ "/health") ;;
     response <- fetch "GET" url None ;;
     if ok response then ret tt (* console.log *) else ret tt (* console.error *))
    (fun error => ret tt (* console.error *)).

(** constructor: the fields, then [testBackendConnection()]. *)
Definition constructor_fields : Converter :=
  {| backendUrl := "https://pdf2msword.netlify.app";
     fileId := JUndefined;
     convertedFilename := JUndefined;
     originalFilename := JUndefined;
     downloadFilename := JUndefined |}.

Definition showProgress : Async unit :=
  assign (set_dom (uploadArea_display_set "none")) ;;
  assign (set_dom (progressArea_display_set "block")) ;;
  assign (set_dom (resultArea_display_set "none")) ;;
  assign (set_dom (errorArea_display_set "none")).
  (* setInterval: the bar's width and the status text only *)

Definition showResult (fileId filename originalFilename : jsval) : Async unit :=
  assign (set_dom (progressArea_display_set "none")) ;;
  assign (set_dom (resultArea_display_set "block")) ;;
  assign (set_this (fileId_set fileId)) ;;
  assign (set_this (convertedFilename_set filename)) ;;
  (* Create a proper filename for download *)
  assign (set_this (downloadFilename_set
                      (or_else originalFilename (JStr "converted_document.docx")))).

Definition showError (msg : string) : Async unit :=
  assign (set_dom (uploadArea_display_set "block")) ;;
  assign (set_dom (progressArea_display_set "none")) ;;
  assign (set_dom (resultArea_display_set "none")) ;;
  assign (set_dom (errorArea_display_set "block")) ;;
  assign (set_dom (errorMessage_textContent_set msg)).

Definition convertFile (file : File) : Async unit :=
  showProgress ;;
  (* formData.append('file', file) *)
  try_catch
    ((* this.status.textContent = 'Uploading PDF...' *)
     url <- gets (fun w => backendUrl (this w) ++ "/convert") ;;
     response <- fetch "POST" url (Some file) ;;
     result <- settle (json response) ;;
     if negb (ok response) then
       error <- settle (Get E result "error") ;;
       exn <- settle (new_Error E
                (or_else error
                   (JStr ("Conversion failed (" ++ nat_literal (status response) ++ ")")))) ;;
       throw exn
     else
       file_id <- settle (Get E result "file_id") ;;
       filename <- settle (Get E result "filename") ;;
       original_filename <- settle (Get E result "original_filename") ;;
       showResult file_id filename original_filename)
    (fun error => showError (message error)).

Definition handleFile (file : File) : Async unit :=
  (* Validate file type *)
  if negb (type file =? "application/pdf") then
    showError "Please select a PDF file"
  (* Validate file size (20MB) *)
  else if (20 * 1024 * 1024 <? size file)%N then
    showError "File size must be less than 20MB"
  else if (size file =? 0)%N then
    showError "File is empty"
  else
    convertFile file.

Definition downloadConvertedFile : Async unit :=
  fileId_ <- gets (fun w => fileId (this w)) ;;
  if negb (truthy fileId_) then
    showError "No file to download"
  else
    try_catch_finally
      (assign (set_dom (downloadBtn_textContent_set "Downloading...")) ;;
       assign (set_dom (downloadBtn_disabled_set true)) ;;
       backendUrl_ <- gets (fun w => backendUrl (this w)) ;;
       url <- settle (template E [JStr backendUrl_; JStr "/download/"; fileId_]) ;;
       response <- fetch "GET" url None ;;
       if negb (ok response) then
         error <- settle (json response) ;;
         error_error <- settle (Get E error "error") ;;
         exn <- settle (new_Error E (or_else error_error (JStr "Download failed"))) ;;
         throw exn
       else
         (* Get the file as blob *)
         blob_ <- settle (blob response) ;;
         (* createObjectURL(blob); createElement('a'); link.href = url *)
         downloadFilename_ <- gets (fun w => downloadFilename (this w)) ;;
         download <- settle (ToString E downloadFilename_) ;;
         (* Trigger download *)
         assign (emit (Click blob_ download))
         (* removeChild(link); revokeObjectURL(url) *))
      (fun error => showError ("Download failed: " ++ message error))
      (assign (set_dom (downloadBtn_textContent_set "Download Word Document")) ;;
       assign (set_dom (downloadBtn_disabled_set false))).

Definition fileInput_change (files : list File) : Async unit :=
  match files with
  | file :: _ => handleFile file
  | [] => ret tt
  end.

Definition uploadArea_drop (files : list File) : Async unit :=
  match files with
  | file :: _ => handleFile file
  | [] => ret tt
  end.

Definition downloadBtn_click : Async unit := downloadConvertedFile.

(** The page-level [resetConverter()]: the page is loaded anew. *)
Definition resetConverter : Async unit := assign (emit Reload).

(** [DOMContentLoaded]: the constructor runs on the fresh document and
    leaves the health probe in flight. *)
Definition DOMContentLoaded (document : DOM) : Outcome unit :=
  testBackendConnection {| dom := document; this := constructor_fields; log := [] |}.
End Methods.
End Part000.

(* ================================================================== *)
(** ** src/frontend/script.js, second document                         *)
(* ================================================================== *)

Module ScriptB.
Section Methods.
Context (E : Engine).

Definition testBackendConnection : Async unit :=
  try_catch
    (url <- gets (fun w => backendUrl (this w) ++ "/health") ;;
     response <- fetch "GET" url None ;;
     data <- settle (json response) ;;
     ret tt (* console.log *))
    (fun error => ret tt (* console.error *)).

(** constructor: the fields, then [initReptile()] (a decoration that
    follows the pointer) and [testBackendConnection()]. *)
Definition constructor_fields : Converter :=
  {| backendUrl := "https://pdf2word-4hoo.onrender.com";
     fileId := JUndefined;
     convertedFilename := JUndefined;
     originalFilename := JUndefined;
     downloadFilename := JUndefined |}.

Definition showProgress : Async unit :=
  assign (set_dom (uploadArea_display_set "none")) ;;
  assign (set_dom (progressArea_display_set "block")) ;;
  assign (set_dom (resultArea_display_set "none")) ;;
  assign (set_dom (errorArea_display_set "none")).
  (* setInterval: the bar's width and the progress text only *)

Definition showLoadingAnimation : Async unit :=
  assign (set_dom (loadingAnimation_show_set true)).

Definition hideLoadingAnimation : Async unit :=
  assign (set_dom (loadingAnimation_show_set false)).

Definition showResult (fileId filename originalFilename : jsval) : Async unit :=
  assign (set_dom (progressArea_display_set "none")) ;;
  assign (set_dom (resultArea_display_set "block")) ;;
  assign (set_this (fileId_set fileId)) ;;
  assign (set_this (convertedFilename_set filename)) ;;
  (* Create a proper filename for download *)
  assign (set_this (downloadFilename_set
                      (or_else originalFilename (JStr "converted_document.docx")))).
  (* this.celebrate(): an animation on the container *)

Definition showError (msg : string) : Async unit :=
  assign (set_dom (uploadArea_display_set "block")) ;;
  assign (set_dom (progressArea_display_set "none")) ;;
  assign (set_dom (resultArea_display_set "none")) ;;
  assign (set_dom (errorArea_display_set "block")) ;;
  assign (set_dom (errorMessage_textContent_set msg)).
  (* Add error shake effect *)

Definition convertFile (file : File) : Async unit :=
  showProgress ;;
  (* formData.append('file', file) *)
  try_catch
    ((* this.progressText.textContent = 'Uploading PDF...' *)
     (* Show loading animation *)
     showLoadingAnimation ;;
     url <- gets (fun w => backendUrl (this w) ++ "/convert") ;;
     response <- fetch "POST" url (Some file) ;;
     (if negb (ok response) then
        errorText <- settle (text response) ;;
        throw (Error ("Conversion failed (" ++ nat_literal (status response) ++ ")"))
      else ret tt) ;;
     result <- settle (json response) ;;
     success <- settle (Get E result "success") ;;
     (if negb (truthy success) then
        error <- settle (Get E result "error") ;;
        exn <- settle (new_Error E (or_else error (JStr "Conversion failed"))) ;;
        throw exn
      else ret tt) ;;
     (* Hide loading animation and show success *)
     hideLoadingAnimation ;;
     file_id <- settle (Get E result "file_id") ;;
     filename <- settle (Get E result "filename") ;;
     original_filename <- settle (Get E result "original_filename") ;;
     showResult file_id filename original_filename)
    (fun error =>
       hideLoadingAnimation ;;
       showError (str_or_else (message error) "Conversion failed. Please try again.")).

Definition handleFile (file : File) : Async unit :=
  (* Validate file type *)
  if negb (type file =? "application/pdf") then
    showError "Please select a PDF file"
  (* Validate file size (20MB) *)
  else if (20 * 1024 * 1024 <? size file)%N then
    showError "File size must be less than 20MB"
  else if (size file =? 0)%N then
    showError "File is empty"
  else
    convertFile file.

(** The label set here is overwritten by the [finally] of the caller;
    the timer started here writes that same label again two seconds
    later. *)
Definition showDownloadSuccess : Async unit :=
  assign (set_dom (downloadBtn_textContent_set "âœ“ Downloaded!")).

Definition downloadConvertedFile : Async unit :=
  fileId_ <- gets (fun w => fileId (this w)) ;;
  if negb (truthy fileId_) then
    showError "No file to download"
  else
    try_catch_finally
      (assign (set_dom (downloadBtn_textContent_set "Downloading...")) ;;
       assign (set_dom (downloadBtn_disabled_set true)) ;;
       backendUrl_ <- gets (fun w => backendUrl (this w)) ;;
       url <- settle (template E [JStr backendUrl_; JStr "/download/"; fileId_]) ;;
       response <- fetch "GET" url None ;;
       (if negb (ok response) then
          errorText <- settle (text response) ;;
          throw (Error "Download failed - file may have expired")
        else ret tt) ;;
       (* Get the file as blob *)
       blob_ <- settle (blob response) ;;
       (if (blob_size blob_ =? 0)%N then
          throw (Error "Downloaded file is empty")
        else ret tt) ;;
       (* Create download link *)
       downloadFilename_ <- gets (fun w => downloadFilename (this w)) ;;
       download <- settle (ToString E downloadFilename_) ;;
       (* Trigger download *)
       assign (emit (Click blob_ download)) ;;
       (* Clean up; show download success effect *)
       showDownloadSuccess)
      (fun error => showError ("Download failed: " ++ message error))
      (assign (set_dom (downloadBtn_textContent_set "Download Word Document")) ;;
       assign (set_dom (downloadBtn_disabled_set false))).

Definition resetToUpload : Async unit :=
  (* Reset everything to initial state *)
  assign (set_dom (uploadArea_display_set "block")) ;;
  assign (set_dom (progressArea_display_set "none")) ;;
  assign (set_dom (resultArea_display_set "none")) ;;
  assign (set_dom (errorArea_display_set "none")) ;;
  assign (set_dom (fileInput_value_set "")).
  (* progress width, progress text, reset animation *)

Definition fileInput_change (files : list File) : Async unit :=
  match files with
  | file :: _ => handleFile file
  | [] => ret tt
  end.

Definition uploadArea_drop (files : list File) : Async unit :=
  match files with
  | file :: _ => handleFile file
  | [] => ret tt
  end.

Definition downloadBtn_click : Async unit := downloadConvertedFile.

Definition newFileBtn_click : Async unit := resetToUpload.

(** The page-level [resetConverter()]: the page is loaded anew. *)
Definition resetConverter : Async unit := assign (emit Reload).

(** [DOMContentLoaded]: the constructor runs on the fresh document and
    leaves the health probe in flight. *)
Definition DOMContentLoaded (document : DOM) : Outcome unit :=
  testBackendConnection {| dom := document; this := constructor_fields; log := [] |}.
End Methods.
End ScriptB.

(* ================================================================== *)
(** ** The three revisions side by side                                *)
(* ================================================================== *)

Inductive Revision : Type := script_A | part_000 | script_B.

Definition handleFile (rev : Revision) (E : Engine) : File -> Async unit :=
  match rev with
  | script_A => ScriptA.handleFile E
  | part_000 => Part000.handleFile E
  | script_B => ScriptB.handleFile E
  end.

Definition convertFile (rev : Revision) (E : Engine) : File -> Async unit :=
  match rev with
  | script_A => ScriptA.convertFile E
  | part_000 => Part000.convertFile E
  | script_B => ScriptB.convertFile E
  end.

Definition downloadConvertedFile (rev : Revision) (E : Engine) : Async unit :=
  match rev with
  | script_A => ScriptA.downloadConvertedFile E
  | part_000 => Part000.downloadConvertedFile E
  | script_B => ScriptB.downloadConvertedFile E
  end.

(** The field of [this] that keeps the name suggested at download. *)
Definition suggested_name (rev : Revision) (c : Converter) : jsval :=
  match rev with
  | script_A => originalFilename c
  | part_000 | script_B => downloadFilename c
  end.

(** Whether [handleFile] of the revision tests [file.size === 0]. *)
Definition tests_empty (rev : Revision) : bool :=
  match rev with
  | script_A => false
  | part_000 | script_B => true
  end.

(** *** The states of the four regions *)

Definition regions (w : World) : string * string * string * string :=
  (uploadArea_display (dom w), progressArea_display (dom w),
   resultArea_display (dom w), errorArea_display (dom w)).

(** upload only: what [resetToUpload] aims at *)
Definition upload_state (w : World) : Prop :=
  regions w = ("block", "none", "none", "none").

(** uploading: what [showProgress] leaves *)
Definition uploading_state (w : World) : Prop :=
  regions w = ("none", "block", "none", "none").

(** result: [showResult] after [showProgress] *)
Definition result_state (w : World) : Prop :=
  regions w = ("none", "none", "block", "none").

(** error: what [showError] leaves, the message in the error region *)
Definition error_state (msg : string) (w : World) : Prop :=
  regions w = ("block", "none", "none", "block") /\
  errorMessage_textContent (dom w) = msg.

(** The requests in a log. *)
Definition requests (l : list Effect) : list Effect :=
  filter (fun e => match e with Fetch _ _ _ => true | _ => false end) l.

(** The save actions in a log. *)
Definition saves (l : list Effect) : list Effect :=
  filter (fun e => match e with Click _ _ => true | _ => false end) l.

(** *** Data for the examples *)

Module Sample.

(** An engine: V8's wording of the two [TypeError]s; whole numbers print
    in decimal (the examples print no other number). *)
Definition engine : Engine :=
  {| NumberToString := fun x =>
       match x with
       | S754_zero _ => "0"
       | S754_infinity false => "Infinity"
       | S754_infinity true => "-Infinity"
       | S754_nan => "NaN"
       | S754_finite s m e =>
           (if s then "-" else "") ++
           nat_literal (Z.to_N (Z.shiftl (Z.pos m) e))
       end;
     TypeError_read := fun v name =>
       Error ("Cannot read properties of " ++
              (match v with JNull => "null" | _ => "undefined" end) ++
              " (reading '" ++ name ++ "')");
     TypeError_primitive := Error "Cannot convert object to primitive value" |}.

(** The elements before any method has run: no inline style.  The page's
    markup is not among the sources; the texts are placeholders. *)
Definition document : DOM :=
  {| uploadArea_display := "";
     progressArea_display := "";
     resultArea_display := "";
     errorArea_display := "";
     fileInput_value := "";
     errorMessage_textContent := "";
     downloadBtn_textContent := "Download Word Document";
     downloadBtn_disabled := false;
     loadingAnimation_show := false |}.

Definition page (rev : Revision) : World :=
  {| dom := document;
     this := match rev with
             | script_A => ScriptA.constructor
             | part_000 => Part000.constructor_fields
             | script_B => ScriptB.constructor_fields
             end;
     log := [] |}.

Definition report_pdf : File :=
  {| name := "report.pdf"; type := "application/pdf"; size := 1024 |}.

Definition notes_txt : File :=
  {| name := "notes.txt"; type := "text/plain"; size := 12 |}.

Definition empty_txt : File :=
  {| name := "empty.txt"; type := "text/plain"; size := 0 |}.

Definition empty_pdf : File :=
  {| name := "empty.pdf"; type := "application/pdf"; size := 0 |}.

Definition huge_pdf : File :=
  {| name := "huge.pdf"; type := "application/pdf"; size := 20 * 1024 * 1024 + 1 |}.

Definition docx (n : N) : Blob :=
  {| blob_size := n;
     blob_type := "application/vnd.openxmlformats-officedocument.wordprocessingml.document" |}.

Definition limit_pdf : File :=
  {| name := "limit.pdf"; type := "application/pdf"; size := 20 * 1024 * 1024 |}.

(** A response with a JSON body. *)
Definition json_response (code : N) (body : jsval) : Response :=
  {| status := code;
     json := inr body;
     text := inr "(the JSON text)";
     blob := inr {| blob_size := 64; blob_type := "application/json" |} |}.

(** A response with a binary body of [n] bytes. *)
Definition binary_response (code : N) (n : N) : Response :=
  {| status := code;
     json := inl (Error "Unexpected end of JSON input");
     text := inr "(the bytes)";
     blob := inr (docx n) |}.

Definition converted (original : jsval) : jsval :=
  JObj [("success", JBool true); ("file_id", JStr "abc123");
        ("filename", JStr "abc123.docx"); ("original_filename", original)].

Definition refused : jsval :=
  JObj [("success", JBool false); ("error", JStr "Invalid PDF")].

(** The page after [report_pdf] was handled and the backend answered
    with a conversion. *)
Definition converted_page (rev : Revision) : World :=
  match run (handleFile rev engine report_pdf (page rev))
            [inr (json_response 200 (converted (JStr "report.docx")))] with
  | Some (w, _) => w
  | None => page rev
  end.

(** The page after [notes_txt] was handled. *)
Definition refused_page (rev : Revision) : World :=
  match run (handleFile rev engine notes_txt (page rev)) [] with
  | Some (w, _) => w
  | None => page rev
  end.

End Sample.

(* ================================================================== *)
(** ** What the specification says, in its own words                   *)
(* ================================================================== *)

(** A computation started in [w] "rejects with [msg] and performs no
    network call": it completes without suspending, the regions show the
    error with that message, and nothing was added to the log. *)
Definition rejects_with (msg : string) (o : Outcome unit) (w : World) : Prop :=
  exists w', o = Completed w' (inr tt) /\ error_state msg w' /\ log w' = log w.

(** A computation started in [w] "submits [file]": it is suspended at one
    more request, the POST of the file to [/convert], the regions showing
    the upload in progress. *)
Definition submits (file : File) (o : Outcome unit) (w : World) : Prop :=
  exists w' k, o = Suspended w' k /\ uploading_state w' /\
    log w' = (log w ++ [Fetch "POST" (backendUrl (this w) ++ "/convert") (Some file)])%list.

(** "A zero-byte file is rejected ... with the message File is empty",
    read for every file of size zero. *)
Definition every_empty_file_is_called_empty (rev : Revision) (E : Engine) : Prop :=
  forall file w, size file = 0%N ->
    rejects_with "File is empty" (handleFile rev E file w) w.

(** A computation, answered by the settlements [net], "reaches the error
    state with the non-empty message [msg]". *)
Definition shows_error (msg : string) (o : Outcome unit) (net : list Settlement) : Prop :=
  exists w', run o net = Some (w', inr tt) /\ error_state msg w' /\ msg <> "".

(** The world is in "the result state holding" the three values. *)
Definition holds_result (rev : Revision) (file_id filename original : jsval)
    (w : World) : Prop :=
  result_state w /\
  fileId (this w) = file_id /\
  convertedFilename (this w) = filename /\
  suggested_name rev (this w) = original.

(** "On HTTP success with a success indicator in the response body,
    transitions to the result state holding exactly the fileId, the
    server-assigned filename and the original filename returned". *)
Definition success_is_stored_exactly (rev : Revision) (E : Engine) : Prop :=
  forall file w r result,
    ok r = true -> json r = inr result ->
    truthy (field result "success") = true ->
    exists w',
      run (convertFile rev E file w) [inr r] = Some (w', inr tt) /\
      holds_result rev (field result "file_id") (field result "filename")
        (field result "original_filename") w'.

(** "for every HTTP-success response whose body carries an error
    indicator (success false), the widget transitions to the error state
    instead of the result state". *)
Definition refusal_is_an_error (rev : Revision) (E : Engine) : Prop :=
  forall file w r result,
    ok r = true -> json r = inr result ->
    field result "success" = JBool false ->
    exists w' msg,
      run (convertFile rev E file w) [inr r] = Some (w', inr tt) /\
      error_state msg w'.

Definition convert_response_claim (rev : Revision) (E : Engine) : Prop :=
  success_is_stored_exactly rev E /\ refusal_is_an_error rev E.

(** The fallback texts of the three revisions. *)
Definition status_fallback (r : Response) : string :=
  "Conversion failed (" ++ nat_literal (status r) ++ ")".

Definition generic_fallback (r : Response) (msg : string) : Prop :=
  msg = "Conversion failed" \/ msg = status_fallback r \/
  msg = "Conversion failed. Please try again.".

(** "For every convert response that is non-2xx or carries an explicit
    failure body, the widget reaches the error state with a non-empty
    message: the server-supplied error message when present, otherwise a
    generic fallback". *)
Definition failure_is_reported (rev : Revision) (E : Engine) : Prop :=
  forall file w r result,
    json r = inr result ->
    ok r = false \/ field result "success" = JBool false ->
    exists msg,
      shows_error msg (convertFile rev E file w) [inr r] /\
      (forall s, field result "error" = JStr s -> s <> "" -> msg = s) /\
      (truthy (field result "error") = false -> generic_fallback r msg).

(** The download button as the [finally] block leaves it. *)
Definition button_ready (w : World) : Prop :=
  downloadBtn_disabled (dom w) = false /\
  downloadBtn_textContent (dom w) = "Download Word Document".

(** The address [downloadConvertedFile] asks for. *)
Definition download_url (rev : Revision) (E : Engine) (w : World) : Exn + string :=
  match rev with
  | script_A =>
      template E [JStr (backendUrl (this w)); JStr "/download/"; fileId (this w);
                  JStr "/"; convertedFilename (this w)]
  | part_000 | script_B =>
      template E [JStr (backendUrl (this w)); JStr "/download/"; fileId (this w)]
  end.

(** The [download] attribute [downloadConvertedFile] gives the link. *)
Definition download_name (rev : Revision) (E : Engine) (w : World) : Exn + string :=
  match rev with
  | script_A => ToString E (or_else (originalFilename (this w)) (JStr "converted.docx"))
  | part_000 | script_B => ToString E (downloadFilename (this w))
  end.

(** Whether the guard of [downloadConvertedFile] finds a result. *)
Definition has_result (rev : Revision) (w : World) : bool :=
  match rev with
  | script_A => truthy (fileId (this w)) && truthy (convertedFilename (this w))
  | part_000 | script_B => truthy (fileId (this w))
  end.

(** The name a revision keeps for the download when the backend
    returned [original]: the first script.js keeps it as it is, the other
    two put a default in the place of a falsy one. *)
Definition kept_name (rev : Revision) (original : jsval) : jsval :=
  match rev with
  | script_A => original
  | part_000 | script_B => or_else original (JStr "converted_document.docx")
  end.

(** The text a revision falls back on when a response that is not 2xx
    names no error. *)
Definition not_ok_fallback (rev : Revision) (r : Response) : string :=
  match rev with
  | script_A => "Conversion failed"
  | part_000 | script_B => status_fallback r
  end.

(** *** More of the behaviour: vocabulary *)

(** The continuation of a suspended computation, run from the world [w]
    the page is in when the request settles with [s]; other listeners may
    have run since the suspension, so [w] need not be the world the
    suspension left. *)
Definition resume {A} (o : Outcome A) (w : World) (s : Settlement) : Outcome A :=
  match o with
  | Suspended _ k => k w s
  | Completed _ _ => o
  end.

(** What the [catch] of [convertFile] shows for a caught error: its
    message, the second script.js putting a fallback in the place of an
    empty one. *)
Definition caught_text (rev : Revision) (error : Exn) : string :=
  match rev with
  | script_A | part_000 => message error
  | script_B => str_or_else (message error) "Conversion failed. Please try again."
  end.

(** The three texts [handleFile] can reject a file with. *)
Definition validation_text (msg : string) : Prop :=
  msg = "Please select a PDF file" \/
  msg = "File size must be less than 20MB" \/
  msg = "File is empty".

(** A request that got no response, or a response that is not 2xx. *)
Definition unsuccessful (s : Settlement) : Prop :=
  match s with
  | inl _ => True
  | inr r => ok r = false
  end.

(** The path the download request of a revision adds to the backend
    address, for a file id and a converted filename that are strings. *)
Definition download_path (rev : Revision) (id filename : string) : string :=
  match rev with
  | script_A => "/download/" ++ id ++ "/" ++ filename
  | part_000 | script_B => "/download/" ++ id
  end.

(** Both the error and the result region on display. *)
Definition error_over_result (w : World) : Prop :=
  regions w = ("block", "none", "block", "block").

(** The [change] listener of the file input and the [drop] listener of
    the upload region, by revision. *)
Definition fileInput_change (rev : Revision) (E : Engine) : list File -> Async unit :=
  match rev with
  | script_A => ScriptA.fileInput_change E
  | part_000 => Part000.fileInput_change E
  | script_B => ScriptB.fileInput_change E
  end.

Definition uploadArea_drop (rev : Revision) (E : Engine) : list File -> Async unit :=
  match rev with
  | script_A => ScriptA.uploadArea_drop E
  | part_000 => Part000.uploadArea_drop E
  | script_B => ScriptB.uploadArea_drop E
  end.

(** More data for the examples. *)
Module Scenario.

Definition summary_pdf : File :=
  {| name := "summary.pdf"; type := "application/pdf"; size := 2048 |}.

Definition converted_summary : jsval :=
  JObj [("success", JBool true); ("file_id", JStr "def456");
        ("filename", JStr "def456.docx"); ("original_filename", JStr "summary.docx")].

(** A response whose body is not JSON. *)
Definition html_response (code : N) : Response :=
  {| status := code;
     json := inl (Error "Unexpected token < in JSON at position 0");
     text := inr "<html>Bad Gateway</html>";
     blob := inr {| blob_size := 24; blob_type := "text/html" |} |}.

Definition offline : Exn := Error "Failed to fetch".

(** The page of the first script.js showing an error. *)
Definition error_page : World := Sample.refused_page script_A.

(** A body whose [error] is the empty array. *)
Definition empty_list_error : jsval := JObj [("error", JArr [])].

(** The page of the second script.js after one conversion and a second
    one that got no response. *)
Definition failed_again : World :=
  match run (convertFile script_B Sample.engine summary_pdf (Sample.converted_page script_B))
            [inl offline] with
  | Some (w, _) => w
  | None => Sample.converted_page script_B
  end.

End Scenario.

(* ================================================================== *)
(** ** Validation: [handleFile]                                        *)
(* ================================================================== *)

Lemma showError_rejects (rev : Revision) (msg : string) (w : World) :
  rejects_with msg
    (match rev with
     | script_A => ScriptA.showError msg w
     | part_000 => Part000.showError msg w
     | script_B => ScriptB.showError msg w
     end) w.
Proof.
  destruct rev; eexists; (split; [reflexivity | split; [split; reflexivity | reflexivity]]).
Qed.

Lemma handleFile_not_pdf (rev : Revision) (E : Engine) (file : File) (w : World) :
  type file <> "application/pdf" ->
  rejects_with "Please select a PDF file" (handleFile rev E file w) w.
Proof.
  intros Hty. apply String.eqb_neq in Hty.
  destruct rev; cbn [handleFile];
    [unfold ScriptA.handleFile | unfold Part000.handleFile | unfold ScriptB.handleFile];
    rewrite Hty; cbn [negb].
  - exact (showError_rejects script_A _ w).
  - exact (showError_rejects part_000 _ w).
  - exact (showError_rejects script_B _ w).
Qed.

Lemma handleFile_too_large (rev : Revision) (E : Engine) (file : File) (w : World) :
  type file = "application/pdf" ->
  (20 * 1024 * 1024 < size file)%N ->
  rejects_with "File size must be less than 20MB" (handleFile rev E file w) w.
Proof.
  intros Hty Hsz. apply String.eqb_eq in Hty. apply N.ltb_lt in Hsz.
  destruct rev; cbn [handleFile];
    [unfold ScriptA.handleFile | unfold Part000.handleFile | unfold ScriptB.handleFile];
    rewrite Hty, Hsz; cbn [negb].
  - exact (showError_rejects script_A _ w).
  - exact (showError_rejects part_000 _ w).
  - exact (showError_rejects script_B _ w).
Qed.

Lemma handleFile_empty_pdf (rev : Revision) (E : Engine) (file : File) (w : World) :
  tests_empty rev = true ->
  type file = "application/pdf" ->
  size file = 0%N ->
  rejects_with "File is empty" (handleFile rev E file w) w.
Proof.
  intros Hrev Hty Hsz. apply String.eqb_eq in Hty.
  destruct rev; try discriminate Hrev; cbn [handleFile];
    [unfold Part000.handleFile | unfold ScriptB.handleFile];
    rewrite Hty, Hsz; cbn [negb].
  - exact (showError_rejects part_000 _ w).
  - exact (showError_rejects script_B _ w).
Qed.

(** A PDF that passes the size tests of the revision is handed to
    [convertFile]. *)
Lemma handleFile_passes (rev : Revision) (E : Engine) (file : File) (w : World) :
  type file = "application/pdf" ->
  (size file <= 20 * 1024 * 1024)%N ->
  (tests_empty rev = true -> size file <> 0%N) ->
  handleFile rev E file w = convertFile rev E file w.
Proof.
  intros Hty Hle Hnz. apply String.eqb_eq in Hty. apply N.ltb_ge in Hle.
  destruct rev; cbn [handleFile convertFile];
    [unfold ScriptA.handleFile | unfold Part000.handleFile | unfold ScriptB.handleFile];
    rewrite Hty, Hle; cbn [negb]; try reflexivity;
    specialize (Hnz eq_refl); apply N.eqb_neq in Hnz; rewrite Hnz; reflexivity.
Qed.

(** [convertFile] always gets as far as the request. *)
Lemma convertFile_submits (rev : Revision) (E : Engine) (file : File) (w : World) :
  submits file (convertFile rev E file w) w.
Proof.
  destruct rev; do 2 eexists; (split; [reflexivity | split; reflexivity]).
Qed.

(* ================================================================== *)
(** ** Conversion: [convertFile] answered by the backend               *)
(* ================================================================== *)

Lemma truthy_field_not_nullish (v : jsval) (name : string) :
  truthy (field v name) = true -> nullish v = false.
Proof. destruct v; cbn; congruence. Qed.

Lemma field_bool_not_nullish (v : jsval) (name : string) (b : bool) :
  field v name = JBool b -> nullish v = false.
Proof. destruct v; cbn; congruence. Qed.

Lemma truthy_nonempty_string (s : string) : s <> "" -> truthy (JStr s) = true.
Proof. intros H. cbn. apply String.eqb_neq in H. now rewrite H. Qed.

Lemma str_or_else_nonempty (a b : string) : b <> "" -> str_or_else a b <> "".
Proof.
  intros Hb. unfold str_or_else. destruct (a =? "") eqn:Ha; [exact Hb|].
  now apply String.eqb_neq.
Qed.

Lemma str_or_else_keeps (a b : string) : a <> "" -> str_or_else a b = a.
Proof. intros Ha. unfold str_or_else. apply String.eqb_neq in Ha. now rewrite Ha. Qed.

Lemma status_fallback_nonempty (r : Response) : status_fallback r <> "".
Proof. unfold status_fallback. cbn. discriminate. Qed.

(** [new Error(e || fallback)] when [e] is a string that is not empty,
    and when [e] is falsy. *)
Lemma new_Error_supplied (E : Engine) (s fallback : string) :
  s <> "" -> new_Error E (or_else (JStr s) (JStr fallback)) = inr (Error s).
Proof.
  intros Hs. unfold or_else. now rewrite (truthy_nonempty_string s Hs).
Qed.

Lemma new_Error_fallback (E : Engine) (e : jsval) (fallback : string) :
  truthy e = false -> new_Error E (or_else e (JStr fallback)) = inr (Error fallback).
Proof. intros He. unfold or_else. now rewrite He. Qed.

(** A 2xx response with a JSON body other than [null]: the first two
    revisions show the result whatever the body says. *)
Lemma ScriptA_convert_ok (E : Engine) (file : File) (w : World) (r : Response)
    (result : jsval) :
  ok r = true -> json r = inr result -> nullish result = false ->
  exists w',
    run (ScriptA.convertFile E file w) [inr r] = Some (w', inr tt) /\
    holds_result script_A (field result "file_id") (field result "filename")
      (field result "original_filename") w'.
Proof.
  intros Hok Hj Hn. unfold ScriptA.convertFile. cbn. rewrite Hj. cbn.
  rewrite Hok. cbn. unfold Get. rewrite Hn. cbn.
  eexists. split; [reflexivity | repeat split].
Qed.

Lemma Part000_convert_ok (E : Engine) (file : File) (w : World) (r : Response)
    (result : jsval) :
  ok r = true -> json r = inr result -> nullish result = false ->
  exists w',
    run (Part000.convertFile E file w) [inr r] = Some (w', inr tt) /\
    holds_result part_000 (field result "file_id") (field result "filename")
      (or_else (field result "original_filename") (JStr "converted_document.docx")) w'.
Proof.
  intros Hok Hj Hn. unfold Part000.convertFile. cbn. rewrite Hj. cbn.
  rewrite Hok. cbn. unfold Get. rewrite Hn. cbn.
  eexists. split; [reflexivity | repeat split].
Qed.

Lemma ScriptB_convert_ok (E : Engine) (file : File) (w : World) (r : Response)
    (result : jsval) :
  ok r = true -> json r = inr result ->
  truthy (field result "success") = true ->
  exists w',
    run (ScriptB.convertFile E file w) [inr r] = Some (w', inr tt) /\
    holds_result script_B (field result "file_id") (field result "filename")
      (or_else (field result "original_filename") (JStr "converted_document.docx")) w'.
Proof.
  intros Hok Hj Hs. pose proof (truthy_field_not_nullish _ _ Hs) as Hn.
  unfold ScriptB.convertFile. cbn. rewrite Hok. cbn. rewrite Hj. cbn.
  unfold Get. rewrite Hn. cbn. rewrite Hs. cbn.
  eexists. split; [reflexivity | repeat split].
Qed.

(** The second script.js, a 2xx response whose body is not [null] and
    has no truthy [success]: whatever [new Error] makes of the body's
    [error], the handler shows a message that is not empty, and the
    fields of [this] are as before. *)
Lemma ScriptB_convert_refused (E : Engine) (file : File) (w : World) (r : Response)
    (result : jsval) :
  ok r = true -> json r = inr result -> nullish result = false ->
  truthy (field result "success") = false ->
  exists w' msg,
    run (ScriptB.convertFile E file w) [inr r] = Some (w', inr tt) /\
    error_state msg w' /\ msg <> "" /\ this w' = this w /\
    (forall exn,
        new_Error E (or_else (field result "error") (JStr "Conversion failed")) = inr exn ->
        msg = str_or_else (message exn) "Conversion failed. Please try again.").
Proof.
  intros Hok Hj Hn Hs.
  unfold ScriptB.convertFile. cbn. rewrite Hok. cbn. rewrite Hj. cbn.
  unfold Get. rewrite Hn. cbn. rewrite Hs. cbn.
  destruct (new_Error E _) as [e | e]; cbn;
    (do 2 eexists; split; [reflexivity |]; split; [split; reflexivity |];
     split; [apply str_or_else_nonempty; discriminate |];
     split; [reflexivity |]; intros exn Hexn; inversion Hexn; subst; reflexivity).
Qed.

(** The second script.js, a response that is not 2xx and whose text can
    be read. *)
Lemma ScriptB_convert_not_ok (E : Engine) (file : File) (w : World) (r : Response)
    (t : string) :
  ok r = false -> text r = inr t ->
  shows_error (status_fallback r) (ScriptB.convertFile E file w) [inr r].
Proof.
  intros Hok Ht. unfold shows_error, ScriptB.convertFile. cbn.
  rewrite Hok. cbn. rewrite Ht. cbn.
  eexists. split; [reflexivity |]. split.
  - split; reflexivity.
  - apply status_fallback_nonempty.
Qed.

(** The first two revisions, a response that is not 2xx with a JSON body
    other than [null]: the message is the one [new Error] was given. *)
Lemma ScriptA_convert_not_ok (E : Engine) (file : File) (w : World) (r : Response)
    (result : jsval) (exn : Exn) :
  ok r = false -> json r = inr result -> nullish result = false ->
  new_Error E (or_else (field result "error") (JStr "Conversion failed")) = inr exn ->
  exists w',
    run (ScriptA.convertFile E file w) [inr r] = Some (w', inr tt) /\
    error_state (message exn) w'.
Proof.
  intros Hok Hj Hn Hexn. unfold ScriptA.convertFile. cbn. rewrite Hj. cbn.
  rewrite Hok. cbn. unfold Get. rewrite Hn. cbn. rewrite Hexn. cbn.
  eexists. split; [reflexivity | split; reflexivity].
Qed.

Lemma Part000_convert_not_ok (E : Engine) (file : File) (w : World) (r : Response)
    (result : jsval) (exn : Exn) :
  ok r = false -> json r = inr result -> nullish result = false ->
  new_Error E (or_else (field result "error") (JStr (status_fallback r))) = inr exn ->
  exists w',
    run (Part000.convertFile E file w) [inr r] = Some (w', inr tt) /\
    error_state (message exn) w'.
Proof.
  intros Hok Hj Hn Hexn. unfold Part000.convertFile. cbn. rewrite Hj. cbn.
  rewrite Hok. cbn. unfold Get. rewrite Hn. cbn.
  unfold status_fallback in Hexn. cbn in Hexn. rewrite Hexn. cbn.
  eexists. split; [reflexivity | split; reflexivity].
Qed.

(* ================================================================== *)
(** ** Download: [downloadConvertedFile]                               *)
(* ================================================================== *)


(** Without a result the first script.js leaves the world as it is. *)
Lemma ScriptA_download_nothing (E : Engine) (w : World) :
  has_result script_A w = false ->
  ScriptA.downloadConvertedFile E w = Completed w (inr tt).
Proof.
  intros H. unfold ScriptA.downloadConvertedFile. cbn in *. now rewrite H.
Qed.

(** Without a result the other two revisions show an error. *)
Lemma download_nothing_rejected (rev : Revision) (E : Engine) (w : World) :
  rev <> script_A ->
  has_result rev w = false ->
  rejects_with "No file to download" (downloadConvertedFile rev E w) w.
Proof.
  intros Hrev H. destruct rev; [congruence | |]; cbn in *;
    [unfold Part000.downloadConvertedFile | unfold ScriptB.downloadConvertedFile];
    cbn; rewrite H; cbn.
  - exact (showError_rejects part_000 _ w).
  - exact (showError_rejects script_B _ w).
Qed.

(** With a result whose address can be written, the request goes out
    and the button is disabled meanwhile. *)
Lemma download_requested (rev : Revision) (E : Engine) (w : World) (url : string) :
  has_result rev w = true ->
  download_url rev E w = inr url ->
  exists w1 k,
    downloadConvertedFile rev E w = Suspended w1 k /\
    log w1 = (log w ++ [Fetch "GET" url None])%list /\
    downloadBtn_disabled (dom w1) = true.
Proof.
  intros H Hurl. destruct rev; cbn in H, Hurl |- *;
    [unfold ScriptA.downloadConvertedFile | unfold Part000.downloadConvertedFile
     | unfold ScriptB.downloadConvertedFile];
    cbn; rewrite H; cbn; rewrite Hurl; cbn;
    do 2 eexists; (split; [reflexivity | split; reflexivity]).
Qed.

(** The second script.js, a 2xx answer with an empty body: an error, and
    no save action. *)
Lemma ScriptB_download_empty (E : Engine) (w : World) (url : string) (r : Response)
    (b : Blob) :
  has_result script_B w = true ->
  download_url script_B E w = inr url ->
  ok r = true -> blob r = inr b -> blob_size b = 0%N ->
  exists w',
    run (ScriptB.downloadConvertedFile E w) [inr r] = Some (w', inr tt) /\
    error_state "Download failed: Downloaded file is empty" w' /\
    saves (log w') = saves (log w).
Proof.
  intros H Hurl Hok Hb Hz. cbn in H, Hurl.
  unfold ScriptB.downloadConvertedFile. cbn. rewrite H. cbn. rewrite Hurl. cbn.
  rewrite Hok. cbn. rewrite Hb. cbn. rewrite Hz. cbn.
  eexists. split; [reflexivity |]. split; [split; reflexivity |].
  cbn. unfold saves. rewrite filter_app. cbn. apply app_nil_r.
Qed.

(** The first script.js and part_000, a 2xx answer: the save action is
    triggered on the blob received, whatever its size. *)
Lemma download_saves_any_blob (rev : Revision) (E : Engine) (w : World)
    (url name_ : string) (r : Response) (b : Blob) :
  rev <> script_B ->
  has_result rev w = true ->
  download_url rev E w = inr url ->
  download_name rev E w = inr name_ ->
  ok r = true -> blob r = inr b ->
  exists w',
    run (downloadConvertedFile rev E w) [inr r] = Some (w', inr tt) /\
    log w' = (log w ++ [Fetch "GET" url None; Click b name_])%list /\
    regions w' = regions w.
Proof.
  intros Hrev H Hurl Hname Hok Hb.
  destruct rev; [| | congruence]; cbn in H, Hurl, Hname |- *;
    [unfold ScriptA.downloadConvertedFile | unfold Part000.downloadConvertedFile];
    cbn; rewrite H; cbn; rewrite Hurl; cbn; rewrite Hok; cbn; rewrite Hb; cbn;
    rewrite Hname; cbn;
    (eexists; split; [reflexivity |]; split; [| reflexivity]);
    cbn; rewrite <- app_assoc; reflexivity.
Qed.

(* ================================================================== *)
(** ** Reset                                                           *)
(* ================================================================== *)

(** [resetToUpload] shows the upload region only and empties the file
    input; it assigns no field of [this]. *)
Lemma resetToUpload_spec (E : Engine) (w : World) :
  exists w',
    ScriptB.resetToUpload w = Completed w' (inr tt) /\
    upload_state w' /\ fileInput_value (dom w') = "" /\
    this w' = this w /\ log w' = log w.
Proof.
  eexists. split; [reflexivity |]. repeat split.
Qed.

(** The first script.js: [resetConverter] adds a converter without a
    result and empties the file input, and nothing else of the page
    changes: the regions stay as they were, and so do the converters made
    before. *)
Lemma ScriptA_resetConverter_spec (p : Page) :
  converters (ScriptA.resetConverter p) = (converters p ++ [ScriptA.constructor])%list /\
  (forall c, regions (view (ScriptA.resetConverter p) c) = regions (view p c)) /\
  fileInput_value (elements (ScriptA.resetConverter p)) = "" /\
  errorMessage_textContent (elements (ScriptA.resetConverter p))
    = errorMessage_textContent (elements p) /\
  traffic (ScriptA.resetConverter p) = traffic p /\
  waiting (ScriptA.resetConverter p) = waiting p.
Proof. repeat split. Qed.

(* ================================================================== *)
(** ** The claims                                                      *)
(* ================================================================== *)

(** C6.  A file whose MIME type is not [application/pdf] is rejected by
    [handleFile] of every revision: the error state with the message
    "Please select a PDF file", and no network call. *)
Theorem non_pdf_is_rejected (rev : Revision) (E : Engine) (file : File) (w : World) :
  type file <> "application/pdf" ->
  rejects_with "Please select a PDF file" (handleFile rev E file w) w.
Proof. apply handleFile_not_pdf. Qed.

Lemma non_pdf_is_rejected_witness :
  rejects_with "Please select a PDF file"
    (handleFile script_A Sample.engine Sample.notes_txt (Sample.page script_A))
    (Sample.page script_A).
Proof.
  apply (non_pdf_is_rejected script_A Sample.engine Sample.notes_txt).
  cbn. discriminate.
Defined.

(** C7.  A PDF file larger than 20 MiB is rejected by [handleFile] of
    every revision: the error state with the message "File size must be
    less than 20MB", and no network call. *)
Theorem oversized_pdf_is_rejected (rev : Revision) (E : Engine) (file : File)
    (w : World) :
  type file = "application/pdf" ->
  (20 * 1024 * 1024 < size file)%N ->
  rejects_with "File size must be less than 20MB" (handleFile rev E file w) w.
Proof. apply handleFile_too_large. Qed.

Lemma oversized_pdf_is_rejected_witness :
  rejects_with "File size must be less than 20MB"
    (handleFile part_000 Sample.engine Sample.huge_pdf (Sample.page part_000))
    (Sample.page part_000).
Proof.
  apply (oversized_pdf_is_rejected part_000 Sample.engine Sample.huge_pdf).
  - reflexivity.
  - cbn. lia.
Defined.

(** C10.  A PDF file of exactly 20 MiB passes the validation of every
    revision and is posted to the backend; among PDF files the message
    "File size must be less than 20MB" is given to the sizes strictly
    above 20 MiB and to no other. *)
Theorem limit_sized_pdf_is_submitted (rev : Revision) (E : Engine) (file : File)
    (w : World) :
  type file = "application/pdf" ->
  (size file = 20 * 1024 * 1024)%N ->
  submits file (handleFile rev E file w) w /\
  (forall other : File,
      type other = "application/pdf" ->
      (rejects_with "File size must be less than 20MB" (handleFile rev E other w) w
       <-> (20 * 1024 * 1024 < size other)%N)).
Proof.
  intros Hty Hsz. split.
  - rewrite handleFile_passes.
    + apply convertFile_submits.
    + exact Hty.
    + rewrite Hsz. apply N.le_refl.
    + intros _. rewrite Hsz. discriminate.
  - intros other Hother. split.
    + intros (w' & Heq & [_ Hmsg] & _).
      destruct (N.ltb_spec (20 * 1024 * 1024) (size other)) as [Hlt | Hle]; [exact Hlt |].
      exfalso.
      destruct (N.eq_dec (size other) 0) as [Hz | Hnz].
      * destruct (tests_empty rev) eqn:Hrev.
        -- destruct (handleFile_empty_pdf rev E other w Hrev Hother Hz)
             as (w'' & Heq' & [_ Hmsg'] & _).
           rewrite Heq' in Heq. injection Heq as <-.
           rewrite Hmsg' in Hmsg. discriminate Hmsg.
        -- rewrite handleFile_passes in Heq; try assumption.
           ++ destruct (convertFile_submits rev E other w) as (w1 & k & Hs & _).
              rewrite Hs in Heq. discriminate Heq.
           ++ rewrite Hrev. discriminate.
      * rewrite handleFile_passes in Heq; try assumption.
        -- destruct (convertFile_submits rev E other w) as (w1 & k & Hs & _).
           rewrite Hs in Heq. discriminate Heq.
        -- intros _. exact Hnz.
    + intros Hlt. now apply handleFile_too_large.
Qed.

Lemma limit_sized_pdf_is_submitted_witness :
  submits Sample.limit_pdf
    (handleFile script_B Sample.engine Sample.limit_pdf (Sample.page script_B))
    (Sample.page script_B).
Proof.
  apply (limit_sized_pdf_is_submitted script_B Sample.engine Sample.limit_pdf);
    reflexivity.
Defined.

(** C2, as stated, fails: the second script.js answers a file of zero
    bytes that is not a PDF with "Please select a PDF file". *)
Lemma every_empty_file_is_called_empty_fails :
  ~ every_empty_file_is_called_empty script_B Sample.engine.
Proof.
  intros H.
  destruct (H Sample.empty_txt (Sample.page script_B) eq_refl)
    as (w' & Heq & [_ Hmsg] & _).
  cbn in Heq. injection Heq as <-. cbn in Hmsg. discriminate Hmsg.
Qed.

(** C2, amended.  For a file of zero bytes: when its type is not the
    PDF type, [handleFile] of every revision ends in the error state with
    "Please select a PDF file" and performs no network call; when it is a
    PDF and the revision tests [file.size === 0] (part_000 and the second
    script.js), [handleFile] ends in the error state with "File is empty"
    and performs no network call. *)
Theorem empty_file_by_design (rev : Revision) (E : Engine) (file : File) (w : World) :
  size file = 0%N ->
  (type file <> "application/pdf" ->
   rejects_with "Please select a PDF file" (handleFile rev E file w) w) /\
  (type file = "application/pdf" -> tests_empty rev = true ->
   rejects_with "File is empty" (handleFile rev E file w) w).
Proof.
  intros Hsz. split.
  - apply handleFile_not_pdf.
  - intros Hty Hrev. now apply handleFile_empty_pdf.
Qed.

Lemma empty_file_by_design_witness :
  rejects_with "Please select a PDF file"
    (handleFile script_B Sample.engine Sample.empty_txt (Sample.page script_B))
    (Sample.page script_B) /\
  rejects_with "File is empty"
    (handleFile script_B Sample.engine Sample.empty_pdf (Sample.page script_B))
    (Sample.page script_B).
Proof.
  split.
  - apply (empty_file_by_design script_B Sample.engine Sample.empty_txt);
      [reflexivity | cbn; discriminate].
  - apply (empty_file_by_design script_B Sample.engine Sample.empty_pdf);
      reflexivity.
Defined.

(** C1, as stated, fails: the backend of the second script.js answers
    with a success body whose original filename is the empty string, and
    the widget holds "converted_document.docx", not the name returned. *)
Lemma convert_response_claim_fails :
  ~ convert_response_claim script_B Sample.engine.
Proof.
  intros [H _].
  destruct (H Sample.report_pdf (Sample.page script_B)
              (Sample.json_response 200 (Sample.converted (JStr "")))
              (Sample.converted (JStr "")) eq_refl eq_refl eq_refl)
    as (w' & Hrun & _ & _ & _ & Hname).
  cbn in Hrun. injection Hrun as <-. cbn in Hname. discriminate Hname.
Qed.

(** C1, amended.  For a convert response with a 2xx status and a JSON
    body: when the body carries a truthy [success], every revision
    reaches the result state holding the body's [file_id] and [filename]
    as returned, and for the download name the body's [original_filename]
    (first script.js) or that name with "converted_document.docx" in the
    place of a falsy one (part_000, second script.js); when the body
    carries [success: false], the second script.js reaches the error
    state and stores nothing. *)
Theorem convert_response_by_design (rev : Revision) (E : Engine) (file : File)
    (w : World) (r : Response) (result : jsval) :
  ok r = true -> json r = inr result ->
  (truthy (field result "success") = true ->
   exists w',
     run (convertFile rev E file w) [inr r] = Some (w', inr tt) /\
     holds_result rev (field result "file_id") (field result "filename")
       (kept_name rev (field result "original_filename")) w') /\
  (rev = script_B -> field result "success" = JBool false ->
   exists w' msg,
     run (convertFile rev E file w) [inr r] = Some (w', inr tt) /\
     error_state msg w' /\ this w' = this w).
Proof.
  intros Hok Hj. split.
  - intros Hs. pose proof (truthy_field_not_nullish _ _ Hs) as Hn.
    destruct rev; cbn [convertFile kept_name].
    + now apply ScriptA_convert_ok.
    + now apply Part000_convert_ok.
    + now apply ScriptB_convert_ok.
  - intros -> Hs. cbn [convertFile].
    destruct (ScriptB_convert_refused E file w r result Hok Hj) as
      (w' & msg & Hrun & Herr & _ & Hthis & _).
    + exact (field_bool_not_nullish _ _ _ Hs).
    + now rewrite Hs.
    + exists w', msg. auto.
Qed.

Lemma convert_response_by_design_witness :
  (exists w',
     run (convertFile script_B Sample.engine Sample.report_pdf (Sample.page script_B))
         [inr (Sample.json_response 200 (Sample.converted (JStr "")))]
     = Some (w', inr tt) /\
     holds_result script_B (JStr "abc123") (JStr "abc123.docx")
       (JStr "converted_document.docx") w') /\
  (exists w' msg,
     run (convertFile script_B Sample.engine Sample.report_pdf (Sample.page script_B))
         [inr (Sample.json_response 200 Sample.refused)]
     = Some (w', inr tt) /\
     error_state msg w' /\ this w' = this (Sample.page script_B)).
Proof.
  split.
  - apply (convert_response_by_design script_B Sample.engine Sample.report_pdf
             (Sample.page script_B)
             (Sample.json_response 200 (Sample.converted (JStr "")))
             (Sample.converted (JStr "")));
      reflexivity.
  - apply (convert_response_by_design script_B Sample.engine Sample.report_pdf
             (Sample.page script_B)
             (Sample.json_response 200 Sample.refused) Sample.refused);
      reflexivity.
Defined.

(** The second script.js does not show the error a body names when the
    status is not 2xx: a 500 whose body names "Invalid PDF" is answered
    with "Conversion failed (500)". *)
Lemma failure_is_reported_fails :
  ~ failure_is_reported script_B Sample.engine.
Proof.
  intros H.
  destruct (H Sample.report_pdf (Sample.page script_B)
              (Sample.json_response 500 Sample.refused) Sample.refused
              eq_refl (or_introl eq_refl))
    as (msg & (w' & Hrun & [_ Hmsg] & _) & Hsupplied & _).
  cbn in Hrun. injection Hrun as <-. cbn in Hmsg.
  specialize (Hsupplied "Invalid PDF" eq_refl).
  rewrite Hsupplied in Hmsg; discriminate.
Qed.

(** What a failing conversion shows where the revisions report one.
    For a convert response whose JSON body is not [null]: when the status
    is not 2xx, the first script.js and part_000 reach the error state
    with the body's [error] when that is a string that is not empty and
    with their fallback ("Conversion failed", resp. "Conversion failed
    (<status>)") when it is falsy or absent, while the second script.js,
    its body text read, reaches the error state with "Conversion failed
    (<status>)" whatever the body names; when the status is 2xx and the
    body carries [success: false], the second script.js reaches the error
    state with the body's [error] when that is a string that is not empty
    and with "Conversion failed" when it is falsy or absent. *)
Theorem convert_failure_by_design (E : Engine) (file : File) (w : World)
    (r : Response) (result : jsval) :
  json r = inr result -> nullish result = false ->
  (forall rev, rev <> script_B -> ok r = false ->
     (forall s, field result "error" = JStr s -> s <> "" ->
        shows_error s (convertFile rev E file w) [inr r]) /\
     (truthy (field result "error") = false ->
        shows_error (not_ok_fallback rev r) (convertFile rev E file w) [inr r])) /\
  (ok r = false -> (exists t, text r = inr t) ->
     shows_error (status_fallback r) (convertFile script_B E file w) [inr r]) /\
  (ok r = true -> field result "success" = JBool false ->
     (forall s, field result "error" = JStr s -> s <> "" ->
        shows_error s (convertFile script_B E file w) [inr r]) /\
     (truthy (field result "error") = false ->
        shows_error "Conversion failed" (convertFile script_B E file w) [inr r])).
Proof.
  intros Hj Hn. split; [| split].
  - intros rev Hrev Hok. split.
    + intros s Hs Hne.
      destruct rev; [| | congruence]; cbn [convertFile].
      * destruct (ScriptA_convert_not_ok E file w r result (Error s) Hok Hj Hn)
          as (w' & Hrun & Herr).
        -- rewrite Hs. now apply new_Error_supplied.
        -- exists w'. auto.
      * destruct (Part000_convert_not_ok E file w r result (Error s) Hok Hj Hn)
          as (w' & Hrun & Herr).
        -- rewrite Hs. now apply new_Error_supplied.
        -- exists w'. auto.
    + intros He.
      destruct rev; [| | congruence]; cbn [convertFile not_ok_fallback].
      * destruct (ScriptA_convert_not_ok E file w r result
                    (Error "Conversion failed") Hok Hj Hn) as (w' & Hrun & Herr).
        -- now apply new_Error_fallback.
        -- exists w'. repeat split; try apply Herr; [exact Hrun | discriminate].
      * destruct (Part000_convert_not_ok E file w r result
                    (Error (status_fallback r)) Hok Hj Hn) as (w' & Hrun & Herr).
        -- now apply new_Error_fallback.
        -- exists w'. repeat split; try apply Herr;
             [exact Hrun | apply status_fallback_nonempty].
  - intros Hok [t Ht]. cbn [convertFile]. now apply (ScriptB_convert_not_ok E file w r t).
  - intros Hok Hs. cbn [convertFile].
    destruct (ScriptB_convert_refused E file w r result Hok Hj Hn) as
      (w' & msg & Hrun & Herr & Hne & _ & Hmsg).
    { now rewrite Hs. }
    split.
    + intros s He Hs'. exists w'.
      rewrite (Hmsg (Error s)) in Herr.
      * cbn [message] in Herr. rewrite (str_or_else_keeps s _ Hs') in Herr. auto.
      * rewrite He. now apply new_Error_supplied.
    + intros He. exists w'.
      rewrite (Hmsg (Error "Conversion failed")) in Herr.
      * cbn in Herr. repeat split; try apply Herr; [exact Hrun | discriminate].
      * now apply new_Error_fallback.
Qed.

Lemma convert_failure_by_design_witness :
  shows_error "Invalid PDF"
    (convertFile script_A Sample.engine Sample.report_pdf (Sample.page script_A))
    [inr (Sample.json_response 500 Sample.refused)] /\
  shows_error "Conversion failed (500)"
    (convertFile script_B Sample.engine Sample.report_pdf (Sample.page script_B))
    [inr (Sample.json_response 500 Sample.refused)] /\
  shows_error "Invalid PDF"
    (convertFile script_B Sample.engine Sample.report_pdf (Sample.page script_B))
    [inr (Sample.json_response 200 Sample.refused)].
Proof.
  split; [| split].
  - destruct (convert_failure_by_design Sample.engine Sample.report_pdf
                (Sample.page script_A)
                (Sample.json_response 500 Sample.refused) Sample.refused
                eq_refl eq_refl) as [Hfirst _].
    apply (Hfirst script_A); [discriminate | reflexivity | reflexivity | discriminate].
  - destruct (convert_failure_by_design Sample.engine Sample.report_pdf
                (Sample.page script_B)
                (Sample.json_response 500 Sample.refused) Sample.refused
                eq_refl eq_refl) as [_ [Hsecond _]].
    apply Hsecond; [reflexivity | eexists; reflexivity].
  - destruct (convert_failure_by_design Sample.engine Sample.report_pdf
                (Sample.page script_B)
                (Sample.json_response 200 Sample.refused) Sample.refused
                eq_refl eq_refl) as [_ [_ Hthird]].
    apply Hthird; [reflexivity | reflexivity | reflexivity | discriminate].
Defined.


(** C3 does not hold of the first script.js.  Freshly loaded, no result
    stored, its [downloadConvertedFile] issues no request and leaves the
    page as it was: no error is shown.  (The other two revisions show
    "No file to download": [download_nothing_rejected].) *)
Theorem download_without_result_is_silent :
  has_result script_A (Sample.page script_A) = false /\
  downloadConvertedFile script_A Sample.engine (Sample.page script_A)
    = Completed (Sample.page script_A) (inr tt) /\
  forall msg, ~ error_state msg (Sample.page script_A).
Proof.
  split; [reflexivity |]. split; [reflexivity |].
  intros msg [Hregions _]. discriminate Hregions.
Qed.

(** C4 does not hold of the first script.js and of part_000.  Holding a
    result, the download answered with 200 and an empty body, both
    trigger the save action on the empty blob and stay in the result
    state.  (The second script.js shows an error instead:
    [ScriptB_download_empty].) *)
Theorem empty_download_is_saved :
  (exists w',
     run (downloadConvertedFile script_A Sample.engine (Sample.converted_page script_A))
         [inr (Sample.binary_response 200 0)] = Some (w', inr tt) /\
     saves (log w') = [Click (Sample.docx 0) "report.docx"] /\
     result_state w') /\
  (exists w',
     run (downloadConvertedFile part_000 Sample.engine (Sample.converted_page part_000))
         [inr (Sample.binary_response 200 0)] = Some (w', inr tt) /\
     saves (log w') = [Click (Sample.docx 0) "report.docx"] /\
     result_state w').
Proof.
  split; eexists; (split; [reflexivity | split; reflexivity]).
Qed.

(** C5 does not hold of [resetToUpload] in the second script.js.  After
    a conversion it shows the upload region alone and empties the file
    input, and the stored result is all still there: a download asked
    for afterwards goes out for the old file. *)
Theorem reset_keeps_the_result :
  exists w',
    ScriptB.resetToUpload (Sample.converted_page script_B) = Completed w' (inr tt) /\
    upload_state w' /\ fileInput_value (dom w') = "" /\
    fileId (this w') = JStr "abc123" /\
    convertedFilename (this w') = JStr "abc123.docx" /\
    downloadFilename (this w') = JStr "report.docx" /\
    exists w1 k,
      downloadConvertedFile script_B Sample.engine w' = Suspended w1 k /\
      requests (log w1) =
        [Fetch "POST" "https://pdf2word-4hoo.onrender.com/convert" (Some Sample.report_pdf);
         Fetch "GET" "https://pdf2word-4hoo.onrender.com/download/abc123" None].
Proof.
  eexists. split; [reflexivity |]. repeat (split; [reflexivity |]).
  do 2 eexists. split; reflexivity.
Qed.

(* ================================================================== *)
(** ** More of the behaviour                                           *)
(* ================================================================== *)

Ltac split_cases :=
  repeat (cbn -[str_or_else];
          match goal with
          | |- context [match ?x with inl _ => _ | inr _ => _ end] => destruct x
          | |- context [if ?b then _ else _] => destruct b
          end).

Lemma append_empty_r (s : string) : s ++ "" = s.
Proof. induction s as [| c s IH]; cbn; [reflexivity | now rewrite IH]. Qed.

(** However the request settles, [convertFile] completes without a
    throw, one request richer, showing the result, or an error with the
    fields of [this] untouched. *)
Lemma convertFile_outcome (rev : Revision) (E : Engine) (file : File) (w : World)
    (s : Settlement) :
  exists w',
    run (convertFile rev E file w) [s] = Some (w', inr tt) /\
    log w' = (log w ++ [Fetch "POST" (backendUrl (this w) ++ "/convert") (Some file)])%list /\
    (result_state w' \/ (exists msg, error_state msg w' /\ this w' = this w)).
Proof.
  destruct rev; cbn [convertFile];
    [unfold ScriptA.convertFile | unfold Part000.convertFile | unfold ScriptB.convertFile];
    unfold Get; split_cases;
    (eexists; split; [reflexivity |]; split; [reflexivity |]);
    first [left; reflexivity | right; eexists; split; [split; reflexivity | reflexivity]].
Qed.

Lemma result_is_no_error (w : World) (msg : string) :
  result_state w -> error_state msg w -> False.
Proof. unfold result_state, error_state. intros H [H' _]. congruence. Qed.

(** X1.  [convertFile] of every revision, however its request settles
    (a rejection, any response), completes without throwing, has issued
    exactly one request, the POST of the file, and ends in the result
    state, or in the error state with the fields of [this] as they
    were. *)
Theorem convert_always_settles (rev : Revision) (E : Engine) (file : File)
    (w : World) (s : Settlement) :
  exists w',
    run (convertFile rev E file w) [s] = Some (w', inr tt) /\
    log w' = (log w ++ [Fetch "POST" (backendUrl (this w) ++ "/convert") (Some file)])%list /\
    (result_state w' \/ (exists msg, error_state msg w' /\ this w' = this w)).
Proof. apply convertFile_outcome. Qed.

(** X2.  A request that gets no response puts every revision in the
    error state, showing the message of the rejection (the second
    script.js a fallback when that message is empty), nothing stored. *)
Theorem network_failure_is_shown (rev : Revision) (E : Engine) (file : File)
    (w : World) (e : Exn) :
  exists w',
    run (convertFile rev E file w) [inl e] = Some (w', inr tt) /\
    error_state (caught_text rev e) w' /\ this w' = this w.
Proof.
  destruct rev; eexists; (split; [reflexivity | split; [split; reflexivity | reflexivity]]).
Qed.

(** X3.  The second script.js never shows an empty message: however the
    request settles, [convertFile] ends in the result state or in the
    error state with a message that is not empty. *)
Theorem ScriptB_message_is_never_empty (E : Engine) (file : File) (w : World)
    (s : Settlement) :
  exists w',
    run (ScriptB.convertFile E file w) [s] = Some (w', inr tt) /\
    (result_state w' \/ (exists msg, error_state msg w' /\ msg <> "")).
Proof.
  unfold ScriptB.convertFile, Get. split_cases;
    (eexists; split; [reflexivity |]);
    first [left; reflexivity
          | right; eexists; split;
            [split; reflexivity | apply str_or_else_nonempty; discriminate]].
Qed.

(** X4.  A body that does not parse as JSON is an error: the message of
    the parser's rejection is shown and nothing is stored; in the first
    script.js and part_000 whatever the status, in the second script.js
    for a 2xx status (it does not parse the body otherwise). *)
Theorem unparsable_body_is_an_error (rev : Revision) (E : Engine) (file : File)
    (w : World) (r : Response) (e : Exn) :
  json r = inl e ->
  (rev = script_B -> ok r = true) ->
  exists w',
    run (convertFile rev E file w) [inr r] = Some (w', inr tt) /\
    error_state (caught_text rev e) w' /\ this w' = this w.
Proof.
  intros Hj Hok.
  destruct rev; cbn [convertFile];
    [unfold ScriptA.convertFile | unfold Part000.convertFile
     | unfold ScriptB.convertFile; cbn -[str_or_else]; rewrite (Hok eq_refl)];
    cbn -[str_or_else]; rewrite Hj; cbn -[str_or_else];
    eexists; (split; [reflexivity | split; [split; reflexivity | reflexivity]]).
Qed.

Lemma unparsable_body_is_an_error_witness :
  exists w',
    run (convertFile script_A Sample.engine Sample.report_pdf (Sample.page script_A))
        [inr (Scenario.html_response 502)] = Some (w', inr tt) /\
    error_state "Unexpected token < in JSON at position 0" w' /\
    this w' = this (Sample.page script_A).
Proof.
  apply (unparsable_body_is_an_error script_A Sample.engine Sample.report_pdf
           (Sample.page script_A) (Scenario.html_response 502)
           (Error "Unexpected token < in JSON at position 0")).
  - reflexivity.
  - discriminate.
Defined.

(** X5.  A body that is the JSON value [null] is an error in every
    revision: the first property read throws, the engine's message for
    that read is shown and nothing is stored (the second script.js reads
    the body only when the status is 2xx). *)
Theorem null_body_is_an_error (rev : Revision) (E : Engine) (file : File)
    (w : World) (r : Response) :
  json r = inr JNull ->
  (rev = script_B -> ok r = true) ->
  exists w' property,
    run (convertFile rev E file w) [inr r] = Some (w', inr tt) /\
    error_state (caught_text rev (TypeError_read E JNull property)) w' /\
    this w' = this w.
Proof.
  intros Hj Hok.
  destruct rev; cbn [convertFile];
    [unfold ScriptA.convertFile | unfold Part000.convertFile
     | unfold ScriptB.convertFile; cbn -[str_or_else]; rewrite (Hok eq_refl)];
    cbn -[str_or_else]; rewrite Hj; cbn -[str_or_else];
    try (destruct (ok r); cbn -[str_or_else]);
    do 2 eexists; (split; [reflexivity | split; [split; reflexivity | reflexivity]]).
Qed.

Lemma null_body_is_an_error_witness :
  exists w' property,
    run (convertFile script_B Sample.engine Sample.report_pdf (Sample.page script_B))
        [inr (Sample.json_response 200 JNull)] = Some (w', inr tt) /\
    error_state (caught_text script_B (TypeError_read Sample.engine JNull property)) w' /\
    this w' = this (Sample.page script_B).
Proof.
  apply (null_body_is_an_error script_B Sample.engine Sample.report_pdf
           (Sample.page script_B) (Sample.json_response 200 JNull));
    reflexivity.
Defined.

(** X6.  The first script.js and part_000 do not look at the body's
    [success]: every 2xx response whose JSON body is not [null] puts them
    in the result state, holding what the body has under [file_id] and
    [filename] ([undefined] for what it lacks) and, as the name for the
    download, what it has under [original_filename] in the first
    script.js ([undefined] when it lacks it), and in part_000 that name
    with "converted_document.docx" in the place of a falsy or missing
    one. *)
Theorem first_revisions_ignore_success (rev : Revision) (E : Engine) (file : File)
    (w : World) (r : Response) (result : jsval) :
  rev <> script_B ->
  ok r = true -> json r = inr result -> nullish result = false ->
  exists w',
    run (convertFile rev E file w) [inr r] = Some (w', inr tt) /\
    holds_result rev (field result "file_id") (field result "filename")
      (kept_name rev (field result "original_filename")) w'.
Proof.
  intros Hrev Hok Hj Hn. destruct rev; [| | congruence]; cbn [convertFile kept_name].
  - now apply ScriptA_convert_ok.
  - now apply Part000_convert_ok.
Qed.

Lemma first_revisions_ignore_success_witness :
  exists w',
    run (convertFile script_A Sample.engine Sample.report_pdf (Sample.page script_A))
        [inr (Sample.json_response 200 Sample.refused)] = Some (w', inr tt) /\
    holds_result script_A JUndefined JUndefined JUndefined w'.
Proof.
  apply (first_revisions_ignore_success script_A Sample.engine Sample.report_pdf
           (Sample.page script_A) (Sample.json_response 200 Sample.refused)
           Sample.refused);
    [discriminate | reflexivity | reflexivity | reflexivity].
Defined.

(** X7.  In part_000 and the second script.js the name kept for the
    download after a conversion is never falsy: an empty, [null] or
    missing [original_filename] is replaced by the default. *)
Theorem kept_download_name_is_truthy (rev : Revision) (E : Engine) (file : File)
    (w w' : World) (r : Response) (result : jsval) :
  rev <> script_A ->
  ok r = true -> json r = inr result ->
  truthy (field result "success") = true ->
  run (convertFile rev E file w) [inr r] = Some (w', inr tt) ->
  truthy (downloadFilename (this w')) = true.
Proof.
  intros Hrev Hok Hj Hs Hrun.
  assert (Hkept : downloadFilename (this w')
                  = or_else (field result "original_filename")
                      (JStr "converted_document.docx")).
  { pose proof (truthy_field_not_nullish _ _ Hs) as Hn.
    destruct rev; [congruence | |].
    - destruct (Part000_convert_ok E file w r result Hok Hj Hn) as (w0 & Hrun0 & H).
      cbn [convertFile] in Hrun. rewrite Hrun0 in Hrun. injection Hrun as <-.
      apply H.
    - destruct (ScriptB_convert_ok E file w r result Hok Hj Hs) as (w0 & Hrun0 & H).
      cbn [convertFile] in Hrun. rewrite Hrun0 in Hrun. injection Hrun as <-.
      apply H. }
  rewrite Hkept. unfold or_else.
  destruct (truthy (field result "original_filename")) eqn:Ht; [exact Ht | reflexivity].
Qed.

Lemma kept_download_name_is_truthy_witness :
  truthy (downloadFilename
            (this (Sample.converted_page script_B))) = true.
Proof.
  apply (kept_download_name_is_truthy script_B Sample.engine Sample.report_pdf
           (Sample.page script_B) (Sample.converted_page script_B)
           (Sample.json_response 200 (Sample.converted (JStr "report.docx")))
           (Sample.converted (JStr "report.docx")));
    [discriminate | reflexivity | reflexivity | reflexivity | reflexivity].
Defined.

(** X8.  Every PDF of at most 20 MiB is submitted by [handleFile],
    provided it is not empty where the revision tests for that; the first
    script.js submits an empty PDF too. *)
Theorem valid_pdf_is_submitted (rev : Revision) (E : Engine) (file : File)
    (w : World) :
  type file = "application/pdf" ->
  (size file <= 20 * 1024 * 1024)%N ->
  (tests_empty rev = true -> size file <> 0%N) ->
  submits file (handleFile rev E file w) w.
Proof.
  intros Hty Hle Hnz. rewrite handleFile_passes by assumption.
  apply convertFile_submits.
Qed.

Lemma valid_pdf_is_submitted_witness :
  submits Sample.report_pdf
    (handleFile script_B Sample.engine Sample.report_pdf (Sample.page script_B))
    (Sample.page script_B) /\
  submits Sample.empty_pdf
    (handleFile script_A Sample.engine Sample.empty_pdf (Sample.page script_A))
    (Sample.page script_A).
Proof.
  split.
  - apply (valid_pdf_is_submitted script_B Sample.engine Sample.report_pdf);
      [reflexivity | cbn; lia | intros _; cbn; discriminate].
  - apply (valid_pdf_is_submitted script_A Sample.engine Sample.empty_pdf);
      [reflexivity | cbn; lia | cbn; discriminate].
Defined.

(** X9.  [handleFile] never lets another file reach the network: when
    it is suspended at a request, the file is a PDF of at most 20 MiB,
    and not empty where the revision tests for that. *)
Theorem submitted_files_are_valid (rev : Revision) (E : Engine) (file : File)
    (w w1 : World) (k : World -> Settlement -> Outcome unit) :
  handleFile rev E file w = Suspended w1 k ->
  type file = "application/pdf" /\
  (size file <= 20 * 1024 * 1024)%N /\
  (tests_empty rev = true -> size file <> 0%N).
Proof.
  intros H.
  destruct (String.eqb_spec (type file) "application/pdf") as [Hty | Hty].
  - destruct (N.ltb_spec (20 * 1024 * 1024) (size file)) as [Hlt | Hle].
    + destruct (handleFile_too_large rev E file w Hty Hlt) as (w' & Heq & _).
      rewrite Heq in H. discriminate H.
    + split; [exact Hty |]. split; [exact Hle |].
      intros Hrev Hz.
      destruct (handleFile_empty_pdf rev E file w Hrev Hty Hz) as (w' & Heq & _).
      rewrite Heq in H. discriminate H.
  - destruct (handleFile_not_pdf rev E file w Hty) as (w' & Heq & _).
    rewrite Heq in H. discriminate H.
Qed.

Lemma submitted_files_are_valid_witness :
  type Sample.report_pdf = "application/pdf" /\
  (size Sample.report_pdf <= 20 * 1024 * 1024)%N /\
  (tests_empty part_000 = true -> size Sample.report_pdf <> 0%N).
Proof.
  destruct (convertFile_submits part_000 Sample.engine Sample.report_pdf
              (Sample.page part_000)) as (w1 & k & Hs & _).
  apply (submitted_files_are_valid part_000 Sample.engine Sample.report_pdf
           (Sample.page part_000) w1 k).
  rewrite <- Hs. reflexivity.
Defined.

(** The three rejections of [handleFile] leave the elements other than
    the regions and the message, the fields of [this] and the log as
    they were. *)
Lemma showError_frame (rev : Revision) (msg : string) (w : World) :
  exists w',
    match rev with
    | script_A => ScriptA.showError msg w
    | part_000 => Part000.showError msg w
    | script_B => ScriptB.showError msg w
    end = Completed w' (inr tt) /\
    error_state msg w' /\ this w' = this w /\ log w' = log w /\
    downloadBtn_disabled (dom w') = downloadBtn_disabled (dom w) /\
    downloadBtn_textContent (dom w') = downloadBtn_textContent (dom w) /\
    fileInput_value (dom w') = fileInput_value (dom w).
Proof.
  destruct rev; eexists; (split; [reflexivity |]); repeat split.
Qed.

(** X10.  When [handleFile] completes without suspending it has rejected
    the file: the error state with one of the three validation texts, no
    request, and the stored result, the download button and the file
    input left as they were. *)
Theorem rejected_file_keeps_result (rev : Revision) (E : Engine) (file : File)
    (w w' : World) (res : Exn + unit) :
  handleFile rev E file w = Completed w' res ->
  res = inr tt /\
  (exists msg, validation_text msg /\ error_state msg w') /\
  this w' = this w /\ log w' = log w /\
  downloadBtn_disabled (dom w') = downloadBtn_disabled (dom w) /\
  downloadBtn_textContent (dom w') = downloadBtn_textContent (dom w) /\
  fileInput_value (dom w') = fileInput_value (dom w).
Proof.
  intros H.
  assert (Hframe : forall msg, validation_text msg ->
            handleFile rev E file w
            = match rev with
              | script_A => ScriptA.showError msg w
              | part_000 => Part000.showError msg w
              | script_B => ScriptB.showError msg w
              end ->
            res = inr tt /\
            (exists msg, validation_text msg /\ error_state msg w') /\
            this w' = this w /\ log w' = log w /\
            downloadBtn_disabled (dom w') = downloadBtn_disabled (dom w) /\
            downloadBtn_textContent (dom w') = downloadBtn_textContent (dom w) /\
            fileInput_value (dom w') = fileInput_value (dom w)).
  { intros msg Hmsg Heq.
    destruct (showError_frame rev msg w) as (w0 & Hshow & Herr & Hrest).
    rewrite Heq, Hshow in H. injection H as <- <-.
    split; [reflexivity |]. split; [exists msg; auto | exact Hrest]. }
  destruct (type file =? "application/pdf") eqn:Hty.
  - destruct (20 * 1024 * 1024 <? size file)%N eqn:Hlt.
    + apply (Hframe "File size must be less than 20MB"); [right; left; reflexivity |].
      destruct rev; cbn [handleFile];
        [unfold ScriptA.handleFile | unfold Part000.handleFile | unfold ScriptB.handleFile];
        now rewrite Hty, Hlt.
    + destruct (tests_empty rev && (size file =? 0)%N) eqn:Hz.
      * apply andb_prop in Hz. destruct Hz as [Hrev Hz].
        apply (Hframe "File is empty"); [right; right; reflexivity |].
        destruct rev; try discriminate Hrev; cbn [handleFile];
          [unfold Part000.handleFile | unfold ScriptB.handleFile];
          now rewrite Hty, Hlt, Hz.
      * exfalso. apply String.eqb_eq in Hty. apply N.ltb_ge in Hlt.
        rewrite handleFile_passes in H; try assumption.
        -- destruct (convertFile_submits rev E file w) as (w1 & k & Hs & _).
           rewrite Hs in H. discriminate H.
        -- intros Hrev. rewrite Hrev in Hz. cbn in Hz. now apply N.eqb_neq.
  - apply (Hframe "Please select a PDF file"); [left; reflexivity |].
    destruct rev; cbn [handleFile];
      [unfold ScriptA.handleFile | unfold Part000.handleFile | unfold ScriptB.handleFile];
      now rewrite Hty.
Qed.

Lemma rejected_file_keeps_result_witness :
  (exists msg, validation_text msg /\
     error_state msg (Sample.refused_page script_B)) /\
  this (Sample.refused_page script_B) = this (Sample.page script_B).
Proof.
  destruct (rejected_file_keeps_result script_B Sample.engine Sample.notes_txt
              (Sample.page script_B) (Sample.refused_page script_B) (inr tt) eq_refl)
    as (_ & Hmsg & Hthis & _).
  split; [exact Hmsg | exact Hthis].
Defined.



(** X12.  A download that gets no response, or one that is not 2xx,
    saves nothing: every revision ends in the error state with a message
    that starts with "Download failed", the log grown by the request
    alone, the stored result kept (the download can be asked for again)
    and the button ready. *)
Theorem download_failure_saves_nothing (rev : Revision) (E : Engine) (w : World)
    (url : string) (s : Settlement) :
  has_result rev w = true ->
  download_url rev E w = inr url ->
  unsuccessful s ->
  exists w' msg,
    run (downloadConvertedFile rev E w) [s] = Some (w', inr tt) /\
    error_state msg w' /\ String.prefix "Download failed" msg = true /\
    log w' = (log w ++ [Fetch "GET" url None])%list /\
    this w' = this w /\ button_ready w'.
Proof.
  intros H Hurl Hs.
  destruct rev; cbn in H, Hurl |- *;
    [unfold ScriptA.downloadConvertedFile | unfold Part000.downloadConvertedFile
     | unfold ScriptB.downloadConvertedFile];
    cbn; rewrite H; cbn; rewrite Hurl; cbn;
    (destruct s as [e | r]; cbn in Hs |- *; [| rewrite Hs; cbn]);
    unfold Get; split_cases;
    do 2 eexists; (split; [reflexivity |]); repeat split.
Qed.

Lemma download_failure_saves_nothing_witness :
  exists w' msg,
    run (downloadConvertedFile part_000 Sample.engine (Sample.converted_page part_000))
        [inr (Sample.json_response 404 Sample.refused)] = Some (w', inr tt) /\
    error_state msg w' /\ String.prefix "Download failed" msg = true /\
    log w' = (log (Sample.converted_page part_000) ++
              [Fetch "GET" "https://pdf2msword.netlify.app/download/abc123" None])%list /\
    this w' = this (Sample.converted_page part_000) /\ button_ready w'.
Proof.
  apply (download_failure_saves_nothing part_000 Sample.engine
           (Sample.converted_page part_000)
           "https://pdf2msword.netlify.app/download/abc123"
           (inr (Sample.json_response 404 Sample.refused)));
    reflexivity.
Defined.

(** X13.  What a failed download shows.  The first script.js shows
    "Download failed. Please try again." whatever went wrong; part_000
    shows "Download failed: " followed by the [error] of a JSON body that
    names one in a string that is not empty; the second script.js shows
    "Download failed: Download failed - file may have expired" for every
    response that is not 2xx and whose text can be read. *)
Theorem download_failure_texts (E : Engine) (w : World) (url : string) (r : Response) :
  ok r = false ->
  (has_result script_A w = true -> download_url script_A E w = inr url ->
   shows_error "Download failed. Please try again."
     (downloadConvertedFile script_A E w) [inr r]) /\
  (forall body s,
     has_result part_000 w = true -> download_url part_000 E w = inr url ->
     json r = inr body -> field body "error" = JStr s -> s <> "" ->
     shows_error ("Download failed: " ++ s)
       (downloadConvertedFile part_000 E w) [inr r]) /\
  (forall t,
     has_result script_B w = true -> download_url script_B E w = inr url ->
     text r = inr t ->
     shows_error "Download failed: Download failed - file may have expired"
       (downloadConvertedFile script_B E w) [inr r]).
Proof.
  intros Hok. split; [| split].
  - intros H Hurl. cbn in H, Hurl |- *. unfold shows_error, ScriptA.downloadConvertedFile.
    cbn. rewrite H. cbn. rewrite Hurl. cbn. rewrite Hok. cbn.
    eexists. split; [reflexivity |]. split; [split; reflexivity | discriminate].
  - intros body s H Hurl Hj He Hs. cbn in H, Hurl |- *.
    pose proof (truthy_nonempty_string s Hs) as Ht.
    assert (Hn : nullish body = false).
    { destruct body; cbn in He |- *; congruence. }
    unfold shows_error, Part000.downloadConvertedFile.
    cbn. rewrite H. cbn. rewrite Hurl. cbn. rewrite Hok. cbn. rewrite Hj. cbn.
    unfold Get. rewrite Hn. cbn. rewrite He.
    rewrite (new_Error_supplied E s "Download failed" Hs). cbn.
    eexists. split; [reflexivity |]. split; [split; reflexivity | discriminate].
  - intros t H Hurl Ht. cbn in H, Hurl |- *.
    unfold shows_error, ScriptB.downloadConvertedFile.
    cbn. rewrite H. cbn. rewrite Hurl. cbn. rewrite Hok. cbn. rewrite Ht. cbn.
    eexists. split; [reflexivity |]. split; [split; reflexivity | discriminate].
Qed.

Lemma download_failure_texts_witness :
  shows_error "Download failed: Invalid PDF"
    (downloadConvertedFile part_000 Sample.engine (Sample.converted_page part_000))
    [inr (Sample.json_response 404 Sample.refused)].
Proof.
  destruct (download_failure_texts Sample.engine (Sample.converted_page part_000)
              "https://pdf2msword.netlify.app/download/abc123"
              (Sample.json_response 404 Sample.refused) eq_refl)
    as (_ & Hpart & _).
  apply (Hpart Sample.refused "Invalid PDF");
    [reflexivity | reflexivity | reflexivity | reflexivity | discriminate].
Defined.

(** X14.  Where the download is asked for.  With a file id and a
    converted filename that are strings and not empty, the request of the
    first script.js goes to [/download/<id>/<filename>] of the backend,
    the requests of part_000 and of the second script.js to
    [/download/<id>]. *)
Theorem download_request_address (rev : Revision) (E : Engine) (w : World)
    (id filename : string) :
  fileId (this w) = JStr id -> id <> "" ->
  (rev = script_A -> convertedFilename (this w) = JStr filename /\ filename <> "") ->
  exists w1,
    in_flight (downloadConvertedFile rev E w) = Some w1 /\
    log w1 = (log w ++ [Fetch "GET" (backendUrl (this w) ++ download_path rev id filename)
                          None])%list.
Proof.
  intros Hid Hid' Hname.
  pose proof (truthy_nonempty_string id Hid') as Ht.
  destruct rev; cbn [downloadConvertedFile download_path];
    [unfold ScriptA.downloadConvertedFile;
     destruct (Hname eq_refl) as [Hfn Hfn'];
     pose proof (truthy_nonempty_string filename Hfn') as Ht'
    | unfold Part000.downloadConvertedFile
    | unfold ScriptB.downloadConvertedFile];
    cbn; rewrite Hid, ?Hfn; rewrite Ht, ?Ht'; cbn;
    eexists; (split; [reflexivity |]); cbn; rewrite ?append_empty_r; reflexivity.
Qed.

Lemma download_request_address_witness :
  exists w1,
    in_flight (downloadConvertedFile script_A Sample.engine
                 (Sample.converted_page script_A)) = Some w1 /\
    log w1 = (log (Sample.converted_page script_A) ++
              [Fetch "GET"
                 "https://pdf2word-4hoo.onrender.com/download/abc123/abc123.docx"
                 None])%list.
Proof.
  apply (download_request_address script_A Sample.engine
           (Sample.converted_page script_A) "abc123" "abc123.docx");
    [reflexivity | discriminate | intros _; split; [reflexivity | discriminate]].
Defined.

(** X15.  The loading animation of the second script.js is on while the
    conversion request is in flight and off once [convertFile] has
    completed, however the request settled and whatever else happened on
    the page meanwhile. *)
Theorem loading_animation_is_hidden (E : Engine) (file : File) (w : World) :
  exists w1 k,
    ScriptB.convertFile E file w = Suspended w1 k /\
    loadingAnimation_show (dom w1) = true /\
    forall w2 s, exists w3,
      k w2 s = Completed w3 (inr tt) /\ loadingAnimation_show (dom w3) = false.
Proof.
  unfold ScriptB.convertFile. cbn. do 2 eexists.
  split; [reflexivity |]. split; [reflexivity |].
  intros w2 s. unfold Get. split_cases; eexists; split; reflexivity.
Qed.

(** X16.  The health probe of part_000 and of the second script.js is
    inert: one GET of [/health], and however it settles the probe
    completes without a throw and leaves every element and every field
    of [this] as it was. *)
Theorem health_probe_is_inert (E : Engine) (w : World) (s : Settlement) :
  (exists w',
     run (Part000.testBackendConnection w) [s] = Some (w', inr tt) /\
     dom w' = dom w /\ this w' = this w /\
     log w' = (log w ++ [Fetch "GET" (backendUrl (this w) ++ "/health") None])%list) /\
  (exists w',
     run (ScriptB.testBackendConnection w) [s] = Some (w', inr tt) /\
     dom w' = dom w /\ this w' = this w /\
     log w' = (log w ++ [Fetch "GET" (backendUrl (this w) ++ "/health") None])%list).
Proof.
  split.
  - unfold Part000.testBackendConnection. split_cases;
      eexists; (split; [reflexivity |]); repeat split.
  - unfold ScriptB.testBackendConnection. split_cases;
      eexists; (split; [reflexivity |]); repeat split.
Qed.

(** X17.  [resetToUpload] of the second script.js writes the four
    regions and the file input and nothing else: the error text, the
    download button, the loading animation, the fields of [this] and the
    log are as before; and a second [resetToUpload] changes nothing. *)
Theorem resetToUpload_touches_regions_and_input (w : World) :
  exists w',
    ScriptB.resetToUpload w = Completed w' (inr tt) /\
    upload_state w' /\ fileInput_value (dom w') = "" /\
    errorMessage_textContent (dom w') = errorMessage_textContent (dom w) /\
    downloadBtn_textContent (dom w') = downloadBtn_textContent (dom w) /\
    downloadBtn_disabled (dom w') = downloadBtn_disabled (dom w) /\
    loadingAnimation_show (dom w') = loadingAnimation_show (dom w) /\
    this w' = this w /\ log w' = log w /\
    ScriptB.resetToUpload w' = Completed w' (inr tt).
Proof.
  eexists. split; [reflexivity |]. repeat split.
Qed.

(** X18.  [resetConverter] of the first script.js adds a converter to
    the page and empties the file input, and that is all.  On a page with
    one converter and an error on display the error stays on display;
    there are then two converters on the same elements, and a PDF of at
    most 20 MiB chosen afterwards is handled by both: it is posted twice,
    and two requests more are in flight. *)
Theorem ScriptA_resetConverter_doubles_listeners (E : Engine) (p : Page)
    (c : Converter) (msg : string) (file : File) :
  converters p = [c] ->
  error_state msg (view p c) ->
  type file = "application/pdf" ->
  (size file <= 20 * 1024 * 1024)%N ->
  (forall c', error_state msg (view (ScriptA.resetConverter p) c')) /\
  fileInput_value (elements (ScriptA.resetConverter p)) = "" /\
  converters (ScriptA.resetConverter p) = [c; ScriptA.constructor] /\
  traffic (dispatch (ScriptA.fileInput_change E [file]) (ScriptA.resetConverter p))
  = (traffic p ++
     [Fetch "POST" (backendUrl c ++ "/convert") (Some file);
      Fetch "POST" (backendUrl ScriptA.constructor ++ "/convert") (Some file)])%list /\
  length (waiting (dispatch (ScriptA.fileInput_change E [file]) (ScriptA.resetConverter p)))
  = (length (waiting p) + 2)%nat.
Proof.
  intros Hc Herr Hty Hle.
  split; [intros c'; exact Herr |]. split; [reflexivity |].
  split; [cbn; now rewrite Hc |].
  apply String.eqb_eq in Hty. apply N.ltb_ge in Hle.
  unfold dispatch, ScriptA.resetConverter. cbn [converters]. rewrite Hc.
  cbn [app length dispatch_from].
  unfold as_converter at 2. cbn [converters nth_error ScriptA.fileInput_change].
  unfold ScriptA.handleFile at 1. rewrite Hty, Hle. cbn [negb].
  unfold ScriptA.convertFile at 1. cbn.
  unfold as_converter. cbn [converters nth_error ScriptA.fileInput_change replace_nth].
  unfold ScriptA.handleFile. rewrite Hty, Hle. cbn [negb].
  unfold ScriptA.convertFile. cbn.
  split.
  - rewrite <- app_assoc. reflexivity.
  - rewrite !length_app. cbn. lia.
Qed.

Lemma ScriptA_resetConverter_doubles_listeners_witness :
  (forall c',
     error_state "Please select a PDF file"
       (view (ScriptA.resetConverter (page_of Scenario.error_page)) c')) /\
  fileInput_value (elements (ScriptA.resetConverter (page_of Scenario.error_page))) = "" /\
  converters (ScriptA.resetConverter (page_of Scenario.error_page))
  = [ScriptA.constructor; ScriptA.constructor] /\
  traffic (dispatch (ScriptA.fileInput_change Sample.engine [Sample.report_pdf])
             (ScriptA.resetConverter (page_of Scenario.error_page)))
  = (traffic (page_of Scenario.error_page) ++
     [Fetch "POST" (backendUrl ScriptA.constructor ++ "/convert") (Some Sample.report_pdf);
      Fetch "POST" (backendUrl ScriptA.constructor ++ "/convert") (Some Sample.report_pdf)])%list /\
  length (waiting (dispatch (ScriptA.fileInput_change Sample.engine [Sample.report_pdf])
                     (ScriptA.resetConverter (page_of Scenario.error_page))))
  = (length (waiting (page_of Scenario.error_page)) + 2)%nat.
Proof.
  apply (ScriptA_resetConverter_doubles_listeners Sample.engine
           (page_of Scenario.error_page) ScriptA.constructor
           "Please select a PDF file" Sample.report_pdf).
  - reflexivity.
  - split; reflexivity.
  - reflexivity.
  - cbn. lia.
Defined.

(** X19.  Nothing keeps a second file from being handled while a
    conversion is in flight.  When a file that is not a PDF is rejected
    meanwhile and the conversion then succeeds, the widget shows the
    error region and the result region together, the result stored. *)
Theorem late_result_over_error (rev : Revision) (E : Engine) (good bad : File)
    (w : World) (r : Response) (result : jsval) :
  type bad <> "application/pdf" ->
  ok r = true -> json r = inr result ->
  truthy (field result "success") = true ->
  exists w1 w2 w3,
    in_flight (convertFile rev E good w) = Some w1 /\
    handleFile rev E bad w1 = Completed w2 (inr tt) /\
    resume (convertFile rev E good w) w2 (inr r) = Completed w3 (inr tt) /\
    error_over_result w3 /\
    errorMessage_textContent (dom w3) = "Please select a PDF file" /\
    fileId (this w3) = field result "file_id".
Proof.
  intros Hbad Hok Hj Hs.
  pose proof (truthy_field_not_nullish _ _ Hs) as Hn.
  apply String.eqb_neq in Hbad.
  destruct rev; cbn [convertFile handleFile];
    [unfold ScriptA.convertFile, ScriptA.handleFile
    | unfold Part000.convertFile, Part000.handleFile
    | unfold ScriptB.convertFile, ScriptB.handleFile];
    rewrite Hbad; cbn; rewrite ?Hok; cbn; rewrite Hj; cbn; rewrite ?Hok; cbn;
    unfold Get; rewrite Hn; cbn; rewrite ?Hs; cbn;
    do 3 eexists; repeat (split; [reflexivity |]); reflexivity.
Qed.

Lemma late_result_over_error_witness :
  exists w1 w2 w3,
    in_flight (convertFile script_B Sample.engine Sample.report_pdf
                 (Sample.page script_B)) = Some w1 /\
    handleFile script_B Sample.engine Sample.notes_txt w1 = Completed w2 (inr tt) /\
    resume (convertFile script_B Sample.engine Sample.report_pdf (Sample.page script_B))
      w2 (inr (Sample.json_response 200 (Sample.converted (JStr "report.docx"))))
      = Completed w3 (inr tt) /\
    error_over_result w3 /\
    errorMessage_textContent (dom w3) = "Please select a PDF file" /\
    fileId (this w3) = JStr "abc123".
Proof.
  apply (late_result_over_error script_B Sample.engine Sample.report_pdf
           Sample.notes_txt (Sample.page script_B)
           (Sample.json_response 200 (Sample.converted (JStr "report.docx")))
           (Sample.converted (JStr "report.docx")));
    [cbn; discriminate | reflexivity | reflexivity | reflexivity].
Defined.

(** X20.  Two conversions may overlap, and the response that arrives
    last decides what is stored.  A second file is submitted while the
    first is in flight; the second response arrives, then the first: the
    widget is in the result state holding the result of the first file,
    the requests having gone out first file first. *)
Theorem last_response_wins (rev : Revision) (E : Engine) (first second : File)
    (w : World) (r1 r2 : Response) (result1 result2 : jsval) :
  ok r1 = true -> json r1 = inr result1 -> truthy (field result1 "success") = true ->
  ok r2 = true -> json r2 = inr result2 -> truthy (field result2 "success") = true ->
  exists w1 w2 w3 w4,
    in_flight (convertFile rev E first w) = Some w1 /\
    in_flight (convertFile rev E second w1) = Some w2 /\
    resume (convertFile rev E second w1) w2 (inr r2) = Completed w3 (inr tt) /\
    holds_result rev (field result2 "file_id") (field result2 "filename")
      (kept_name rev (field result2 "original_filename")) w3 /\
    resume (convertFile rev E first w) w3 (inr r1) = Completed w4 (inr tt) /\
    holds_result rev (field result1 "file_id") (field result1 "filename")
      (kept_name rev (field result1 "original_filename")) w4 /\
    log w4 = (log w ++ [Fetch "POST" (backendUrl (this w) ++ "/convert") (Some first);
                        Fetch "POST" (backendUrl (this w) ++ "/convert") (Some second)])%list.
Proof.
  intros Hok1 Hj1 Hs1 Hok2 Hj2 Hs2.
  pose proof (truthy_field_not_nullish _ _ Hs1) as Hn1.
  pose proof (truthy_field_not_nullish _ _ Hs2) as Hn2.
  destruct rev; cbn [convertFile kept_name];
    [unfold ScriptA.convertFile | unfold Part000.convertFile | unfold ScriptB.convertFile];
    cbn; rewrite ?Hok1, ?Hok2; cbn; rewrite Hj1, Hj2; cbn; rewrite ?Hok1, ?Hok2; cbn;
    unfold Get; rewrite Hn1, Hn2; cbn; rewrite ?Hs1, ?Hs2; cbn;
    do 4 eexists;
    (split; [reflexivity |]); (split; [reflexivity |]); (split; [reflexivity |]);
    (split; [repeat split |]); (split; [reflexivity |]);
    (split; [repeat split |]);
    cbn; rewrite <- app_assoc; reflexivity.
Qed.

Lemma last_response_wins_witness :
  exists w1 w2 w3 w4,
    in_flight (convertFile script_B Sample.engine Sample.report_pdf
                 (Sample.page script_B)) = Some w1 /\
    in_flight (convertFile script_B Sample.engine Scenario.summary_pdf w1) = Some w2 /\
    resume (convertFile script_B Sample.engine Scenario.summary_pdf w1) w2
      (inr (Sample.json_response 200 Scenario.converted_summary))
      = Completed w3 (inr tt) /\
    holds_result script_B (JStr "def456") (JStr "def456.docx") (JStr "summary.docx") w3 /\
    resume (convertFile script_B Sample.engine Sample.report_pdf (Sample.page script_B))
      w3 (inr (Sample.json_response 200 (Sample.converted (JStr "report.docx"))))
      = Completed w4 (inr tt) /\
    holds_result script_B (JStr "abc123") (JStr "abc123.docx") (JStr "report.docx") w4 /\
    log w4 = (log (Sample.page script_B) ++
              [Fetch "POST" "https://pdf2word-4hoo.onrender.com/convert"
                 (Some Sample.report_pdf);
               Fetch "POST" "https://pdf2word-4hoo.onrender.com/convert"
                 (Some Scenario.summary_pdf)])%list.
Proof.
  apply (last_response_wins script_B Sample.engine Sample.report_pdf
           Scenario.summary_pdf (Sample.page script_B)
           (Sample.json_response 200 (Sample.converted (JStr "report.docx")))
           (Sample.json_response 200 Scenario.converted_summary)
           (Sample.converted (JStr "report.docx")) Scenario.converted_summary);
    reflexivity.
Defined.

Lemma has_result_of_this (rev : Revision) (w w' : World) :
  this w' = this w -> has_result rev w' = has_result rev w.
Proof. intros H. destruct rev; cbn; now rewrite H. Qed.

Lemma download_url_of_this (rev : Revision) (E : Engine) (w w' : World) :
  this w' = this w -> download_url rev E w' = download_url rev E w.
Proof. intros H. destruct rev; cbn; now rewrite H. Qed.

(** X21.  A conversion that fails does not drop an earlier result: when
    the widget holds a result and a later [convertFile] ends in the error
    state, [downloadConvertedFile] still sends its request, for the
    earlier file. *)
Theorem failed_conversion_keeps_download (rev : Revision) (E : Engine) (file : File)
    (w w' : World) (s : Settlement) (msg url : string) :
  has_result rev w = true ->
  download_url rev E w = inr url ->
  run (convertFile rev E file w) [s] = Some (w', inr tt) ->
  error_state msg w' ->
  exists w1 k,
    downloadConvertedFile rev E w' = Suspended w1 k /\
    log w1 = (log w' ++ [Fetch "GET" url None])%list /\
    downloadBtn_disabled (dom w1) = true.
Proof.
  intros H Hurl Hrun Herr.
  destruct (convertFile_outcome rev E file w s) as (w0 & Hrun0 & _ & Hcases).
  rewrite Hrun0 in Hrun. injection Hrun as ->.
  destruct Hcases as [Hres | (msg' & _ & Hthis)].
  - destruct (result_is_no_error _ _ Hres Herr).
  - apply download_requested.
    + now rewrite (has_result_of_this rev w w' Hthis).
    + now rewrite (download_url_of_this rev E w w' Hthis).
Qed.

Lemma failed_conversion_keeps_download_witness :
  exists w1 k,
    downloadConvertedFile script_B Sample.engine Scenario.failed_again = Suspended w1 k /\
    log w1 = (log Scenario.failed_again ++
              [Fetch "GET" "https://pdf2word-4hoo.onrender.com/download/abc123" None])%list /\
    downloadBtn_disabled (dom w1) = true.
Proof.
  apply (failed_conversion_keeps_download script_B Sample.engine Scenario.summary_pdf
           (Sample.converted_page script_B) Scenario.failed_again
           (inl Scenario.offline) "Failed to fetch"
           "https://pdf2word-4hoo.onrender.com/download/abc123");
    [reflexivity | reflexivity | reflexivity | split; reflexivity].
Defined.

(** X22.  Without a result [downloadConvertedFile] sends no request in
    any revision and leaves the stored fields and the download button as
    they were; part_000 and the second script.js end in the error state
    with "No file to download", the first script.js changes nothing at
    all. *)
Theorem download_without_result (rev : Revision) (E : Engine) (w : World) :
  has_result rev w = false ->
  exists w',
    downloadConvertedFile rev E w = Completed w' (inr tt) /\
    log w' = log w /\ this w' = this w /\
    downloadBtn_disabled (dom w') = downloadBtn_disabled (dom w) /\
    downloadBtn_textContent (dom w') = downloadBtn_textContent (dom w) /\
    (rev = script_A -> w' = w) /\
    (rev <> script_A -> error_state "No file to download" w').
Proof.
  intros H.
  destruct rev; cbn in H |- *;
    [unfold ScriptA.downloadConvertedFile | unfold Part000.downloadConvertedFile
     | unfold ScriptB.downloadConvertedFile];
    cbn; rewrite H; cbn; eexists; (split; [reflexivity |]);
    repeat split; congruence.
Qed.

Lemma download_without_result_witness :
  exists w',
    downloadConvertedFile part_000 Sample.engine (Sample.page part_000)
      = Completed w' (inr tt) /\
    log w' = log (Sample.page part_000) /\ this w' = this (Sample.page part_000) /\
    downloadBtn_disabled (dom w') = downloadBtn_disabled (dom (Sample.page part_000)) /\
    downloadBtn_textContent (dom w')
      = downloadBtn_textContent (dom (Sample.page part_000)) /\
    (part_000 = script_A -> w' = Sample.page part_000) /\
    (part_000 <> script_A -> error_state "No file to download" w').
Proof.
  apply (download_without_result part_000 Sample.engine (Sample.page part_000)).
  reflexivity.
Defined.

(** X23.  The second script.js refuses an empty download: a 2xx answer
    whose blob has no bytes ends in the error state with "Download
    failed: Downloaded file is empty", no save action, the request alone
    added to the log, the stored result kept and the button ready. *)
Theorem ScriptB_empty_download_is_refused (E : Engine) (w : World) (url : string)
    (r : Response) (b : Blob) :
  has_result script_B w = true ->
  download_url script_B E w = inr url ->
  ok r = true -> blob r = inr b -> blob_size b = 0%N ->
  exists w',
    run (ScriptB.downloadConvertedFile E w) [inr r] = Some (w', inr tt) /\
    error_state "Download failed: Downloaded file is empty" w' /\
    log w' = (log w ++ [Fetch "GET" url None])%list /\
    this w' = this w /\ button_ready w'.
Proof.
  intros H Hurl Hok Hb Hz. cbn in H, Hurl.
  unfold ScriptB.downloadConvertedFile. cbn. rewrite H. cbn. rewrite Hurl. cbn.
  rewrite Hok. cbn. rewrite Hb. cbn. rewrite Hz. cbn.
  eexists. split; [reflexivity |]. repeat split.
Qed.

Lemma ScriptB_empty_download_is_refused_witness :
  exists w',
    run (ScriptB.downloadConvertedFile Sample.engine (Sample.converted_page script_B))
        [inr (Sample.binary_response 200 0)] = Some (w', inr tt) /\
    error_state "Download failed: Downloaded file is empty" w' /\
    log w' = (log (Sample.converted_page script_B) ++
              [Fetch "GET" "https://pdf2word-4hoo.onrender.com/download/abc123" None])%list /\
    this w' = this (Sample.converted_page script_B) /\ button_ready w'.
Proof.
  apply (ScriptB_empty_download_is_refused Sample.engine
           (Sample.converted_page script_B)
           "https://pdf2word-4hoo.onrender.com/download/abc123"
           (Sample.binary_response 200 0) (Sample.docx 0));
    reflexivity.
Defined.

(** [handleFile] rejects with one of its three texts, or submits. *)
Lemma handleFile_rejects_or_submits (rev : Revision) (E : Engine) (file : File)
    (w : World) :
  (exists msg, validation_text msg /\ rejects_with msg (handleFile rev E file w) w) \/
  submits file (handleFile rev E file w) w.
Proof.
  destruct (String.eqb_spec (type file) "application/pdf") as [Hty | Hty].
  - destruct (N.ltb_spec (20 * 1024 * 1024) (size file)) as [Hlt | Hle].
    + left. exists "File size must be less than 20MB".
      split; [right; left; reflexivity | now apply handleFile_too_large].
    + destruct (tests_empty rev) eqn:Hrev.
      * destruct (N.eq_dec (size file) 0) as [Hz | Hnz].
        -- left. exists "File is empty".
           split; [right; right; reflexivity | now apply handleFile_empty_pdf].
        -- right. rewrite handleFile_passes; auto using convertFile_submits.
      * right. rewrite handleFile_passes; auto using convertFile_submits.
        rewrite Hrev. discriminate.
  - left. exists "Please select a PDF file".
    split; [left; reflexivity | now apply handleFile_not_pdf].
Qed.

(** X24.  The listeners for a chosen and for a dropped list of files do
    the same, and look at the first file only: with no file the page is
    left as it is; otherwise the first file is rejected with a validation
    text and no request, or it is the one file submitted, whatever files
    follow it. *)
Theorem listeners_handle_the_first_file (rev : Revision) (E : Engine)
    (files : list File) (w : World) :
  uploadArea_drop rev E files w = fileInput_change rev E files w /\
  match files with
  | [] => fileInput_change rev E files w = Completed w (inr tt)
  | file :: _ =>
      (exists msg, validation_text msg /\
                   rejects_with msg (fileInput_change rev E files w) w) \/
      submits file (fileInput_change rev E files w) w
  end.
Proof.
  split.
  - destruct rev, files; reflexivity.
  - destruct files as [| file rest].
    + destruct rev; reflexivity.
    + replace (fileInput_change rev E (file :: rest) w) with (handleFile rev E file w)
        by (destruct rev; reflexivity).
      apply handleFile_rejects_or_submits.
Qed.

(** C8 does not hold of the first script.js and of part_000.  Answered
    with 200 and a body that carries [success: false] and names its
    error, both show the result region, with nothing to download stored
    and no message written.  Answered with 500 and a body whose [error]
    is the empty array, both show the error region with an empty
    message.  (The second script.js throws on a falsy [success] and puts
    a fallback in the place of an empty message: [ScriptB_convert_refused].) *)
Theorem refused_conversion_is_not_reported :
  (exists w',
     run (convertFile script_A Sample.engine Sample.report_pdf (Sample.page script_A))
         [inr (Sample.json_response 200 Sample.refused)] = Some (w', inr tt) /\
     result_state w' /\ fileId (this w') = JUndefined /\
     errorMessage_textContent (dom w') = "") /\
  (exists w',
     run (convertFile part_000 Sample.engine Sample.report_pdf (Sample.page part_000))
         [inr (Sample.json_response 200 Sample.refused)] = Some (w', inr tt) /\
     result_state w' /\ fileId (this w') = JUndefined /\
     errorMessage_textContent (dom w') = "") /\
  (exists w',
     run (convertFile script_A Sample.engine Sample.report_pdf (Sample.page script_A))
         [inr (Sample.json_response 500 Scenario.empty_list_error)] = Some (w', inr tt) /\
     error_state "" w') /\
  (exists w',
     run (convertFile part_000 Sample.engine Sample.report_pdf (Sample.page part_000))
         [inr (Sample.json_response 500 Scenario.empty_list_error)] = Some (w', inr tt) /\
     error_state "" w').
Proof.
  repeat split; eexists; (split; [reflexivity |]); repeat split.
Qed.
